(** * ElmapiCMS JavaScript SDK: request pipeline and error classification

    A shallow embedding of the SDK module [index.js], read together with
    its declarations [index.d.ts]: the error class hierarchy,
    [createApiError], [createNetworkError], the [ApiClient] class with its
    request executor and convenience methods, and [createClient].

    Conventions of the embedding.
    - JavaScript values that the SDK handles dynamically (decoded response
      bodies, query parameters, payloads) are terms of [JsValue].  Numbers
      are integer valued ([Z], standing for the integers a double holds
      exactly): the only numbers the SDK itself creates or inspects are
      HTTP status codes and millisecond timeouts.  Parameters that
      [index.d.ts] declares as [string] are strings.
    - Strings are [string]; objects are association lists in insertion
      order; header tables are finite maps.
    - A [throw] is an abrupt [Completion]; [await] on the superagent
      request is a node of the [Async] tree whose continuation receives
      whatever the transport settles with.
    - [this] is threaded explicitly through every method. *)

From Stdlib Require Import ZArith String Ascii List.
From stdpp Require Import base gmap strings list pretty.

Local Open Scope Z_scope.
Local Open Scope string_scope.

(** ** JavaScript values *)

Set Warnings "-register-all".

Inductive JsValue : Type :=
| JUndefined
| JNull
| JBool (b : bool)
| JNum (n : Z)
| JStr (s : string)
| JArr (items : list JsValue)
| JObj (props : list (string * JsValue)).

(** ToBoolean. *)
Definition truthy (v : JsValue) : bool :=
  match v with
  | JUndefined | JNull => false
  | JBool b => b
  | JNum n => negb (Z.eqb n 0)
  | JStr s => negb (String.eqb s EmptyString)
  | JArr _ | JObj _ => true
  end.

(** [a || b] *)
Definition js_or (a b : JsValue) : JsValue := if truthy a then a else b.
Infix "|||" := js_or (at level 50, left associativity).

(** A parameter default value [function f(x = d)]: used when the argument
    is [undefined]. *)
Definition default_arg (v d : JsValue) : JsValue :=
  match v with JUndefined => d | _ => v end.

Fixpoint assoc (k : string) (props : list (string * JsValue)) : option JsValue :=
  match props with
  | [] => None
  | (k', v) :: rest => if String.eqb k k' then Some v else assoc k rest
  end.

(** How the evaluation of an expression or a function body completes:
    normally with a value, or abruptly with a thrown one. *)
Inductive Completion (E A : Type) : Type :=
| Returns (v : A)
| Throws (e : E).
Arguments Returns {E A} v.
Arguments Throws {E A} e.

(** The runtime's own [TypeError], raised when property [reading] is read
    from [null] or [undefined]. *)
Inductive RuntimeError : Type :=
| TypeError (reading : string).

(** [v == null]: the values a property cannot be read from. *)
Definition nullish (v : JsValue) : bool :=
  match v with JUndefined | JNull => true | _ => false end.

(** The value of property [k] of a non-nullish [v].  Own data properties
    of objects are looked up; primitives and arrays carry none of the
    property names the SDK reads ([message], [error], [details], [code],
    [name]). *)
Definition prop (k : string) (v : JsValue) : JsValue :=
  match v with
  | JObj props => default JUndefined (assoc k props)
  | _ => JUndefined
  end.

(** Property read [v.k]. *)
Definition get (k : string) (v : JsValue) : Completion RuntimeError JsValue :=
  if nullish v then Throws (TypeError k) else Returns (prop k v).

(** ToString, as applied by the [Error] constructor to its argument and
    by template literals.  The conversion is the runtime's on every value
    in which no object carries an own [toString] property; on an object
    that does (decoded JSON can: the property is then not callable) the
    runtime throws a [TypeError] instead, which this total function does
    not render.  The SDK itself only converts strings and timeouts; a
    decoded [message] or [error] field reaches the conversion in
    [createApiError], and the results that say an error is returned there
    are stated for [readable] bodies, whose fields are strings. *)
Fixpoint ToString (v : JsValue) : string :=
  match v with
  | JUndefined => "undefined"
  | JNull => "null"
  | JBool true => "true"
  | JBool false => "false"
  | JNum n => pretty n
  | JStr s => s
  | JArr items =>
      (fix join (l : list JsValue) : string :=
         match l with
         | [] => EmptyString
         | x :: rest =>
             let sx := match x with
                       | JUndefined | JNull => EmptyString
                       | _ => ToString x
                       end in
             match rest with
             | [] => sx
             | _ => sx +:+ "," +:+ join rest
             end
         end) items
  | JObj _ => "[object Object]"
  end.

(** ** The error hierarchy *)

(** [RequestContext]: the [requestInfo] object literal built per call. *)
Record RequestInfo : Type := mkRequestInfo {
  info_method : string;
  info_url : string;
  info_params : JsValue;
  info_data : JsValue;
  info_timeout : Z
}.

Inductive ErrorClass : Type :=
| ElmapiErrorClass
| AuthenticationErrorClass
| AuthorizationErrorClass
| NotFoundErrorClass
| ValidationErrorClass
| RateLimitErrorClass
| ServerErrorClass
| NetworkErrorClass
| TimeoutErrorClass.

Global Instance ErrorClass_eq_dec : EqDecision ErrorClass.
Proof. solve_decision. Defined.

(** An instance of [ElmapiError] or of one of its subclasses.  A property
    the constructor leaves unset reads as [None] / [JUndefined]. *)
Record ElmapiError : Type := mkElmapiError {
  constructor_of : ErrorClass;
  message : string;
  statusCode : option Z;
  code : JsValue;
  details : JsValue;
  requestInfo : option RequestInfo
}.

(** [this.name = this.constructor.name] *)
Definition name (e : ElmapiError) : string :=
  match constructor_of e with
  | ElmapiErrorClass => "ElmapiError"
  | AuthenticationErrorClass => "AuthenticationError"
  | AuthorizationErrorClass => "AuthorizationError"
  | NotFoundErrorClass => "NotFoundError"
  | ValidationErrorClass => "ValidationError"
  | RateLimitErrorClass => "RateLimitError"
  | ServerErrorClass => "ServerError"
  | NetworkErrorClass => "NetworkError"
  | TimeoutErrorClass => "TimeoutError"
  end.

(** [e instanceof C]: every subclass extends [ElmapiError] directly. *)
Definition instanceof (e : ElmapiError) (C : ErrorClass) : bool :=
  match C with
  | ElmapiErrorClass => true
  | _ => bool_decide (constructor_of e = C)
  end.

(** The body of [ElmapiError]'s constructor, run on behalf of class [C];
    [super(message)] stores the string conversion of its argument (see
    [ToString] for the arguments on which the runtime's conversion
    throws). *)
Definition construct (C : ErrorClass) (msg : JsValue) (status : option Z)
    (code details : JsValue) (info : option RequestInfo) : ElmapiError :=
  {| constructor_of := C;
     message := ToString msg;
     statusCode := status;
     code := code;
     details := details;
     requestInfo := info |}.

Definition new_ElmapiError (message : JsValue) (statusCode : option Z)
    (code details : JsValue) (requestInfo : option RequestInfo) : ElmapiError :=
  construct ElmapiErrorClass message statusCode code details requestInfo.

Definition new_AuthenticationError (message : JsValue)
    (requestInfo : option RequestInfo) : ElmapiError :=
  let message :=
    default_arg message (JStr "Authentication failed. Please check your API token.") in
  construct AuthenticationErrorClass message (Some 401)
    (JStr "AUTHENTICATION_ERROR") JUndefined requestInfo.

Definition new_AuthorizationError (message : JsValue)
    (requestInfo : option RequestInfo) : ElmapiError :=
  let message :=
    default_arg message (JStr "You do not have permission to perform this action.") in
  construct AuthorizationErrorClass message (Some 403)
    (JStr "AUTHORIZATION_ERROR") JUndefined requestInfo.

Definition new_NotFoundError (resource : string)
    (requestInfo : option RequestInfo) : ElmapiError :=
  construct NotFoundErrorClass (JStr (resource +:+ " not found.")) (Some 404)
    (JStr "NOT_FOUND") JUndefined requestInfo.

Definition new_ValidationError (message : JsValue) (details : JsValue)
    (requestInfo : option RequestInfo) : ElmapiError :=
  construct ValidationErrorClass message (Some 422)
    (JStr "VALIDATION_ERROR") details requestInfo.

Definition new_RateLimitError (message : JsValue)
    (requestInfo : option RequestInfo) : ElmapiError :=
  let message :=
    default_arg message (JStr "Rate limit exceeded. Please try again later.") in
  construct RateLimitErrorClass message (Some 429)
    (JStr "RATE_LIMIT_ERROR") JUndefined requestInfo.

Definition new_ServerError (message : JsValue)
    (requestInfo : option RequestInfo) : ElmapiError :=
  let message :=
    default_arg message (JStr "Server error occurred. Please try again later.") in
  construct ServerErrorClass message (Some 500)
    (JStr "SERVER_ERROR") JUndefined requestInfo.

Definition new_NetworkError (message : JsValue)
    (requestInfo : option RequestInfo) : ElmapiError :=
  let message :=
    default_arg message (JStr "Network error occurred. Please check your connection.") in
  construct NetworkErrorClass message None
    (JStr "NETWORK_ERROR") JUndefined requestInfo.

Definition new_TimeoutError (timeout : Z)
    (requestInfo : option RequestInfo) : ElmapiError :=
  construct TimeoutErrorClass
    (JStr ("Request timed out after " +:+ pretty timeout +:+ "ms.")) None
    (JStr "TIMEOUT_ERROR") JUndefined requestInfo.

(** ** Sequencing of completions *)

Global Instance Completion_ret {E} : MRet (Completion E) :=
  fun _ v => Returns v.
Global Instance Completion_bind {E} : MBind (Completion E) :=
  fun _ _ f m => match m with Returns v => f v | Throws e => Throws e end.

(** ** What the environment supplies *)

(** The response object superagent hands over: numeric [status], the
    decoded [body] and the raw [text]. *)
Record Response : Type := mkResponse {
  status : Z;
  body : JsValue;
  text : JsValue
}.

(** The error a superagent request rejects with.  [response] is set when
    the server answered with a non-success status; [code] and [timeout]
    are set by the transport layer; [message] is the [Error] message. *)
Record TransportError : Type := mkTransportError {
  err_response : option Response;
  err_code : JsValue;
  err_timeout : JsValue;
  err_message : string
}.

(** The JSON facility of the runtime.  [JSON_parse] answers [None] where
    [JSON.parse] throws a [SyntaxError]. *)
Record JsonFacility : Type := mkJson {
  JSON_parse : string -> option JsValue;
  JSON_stringify : JsValue -> JsValue
}.

(** [v === 'literal'] *)
Definition strict_eq_string (v : JsValue) (lit : string) : bool :=
  match v with JStr s => String.eqb s lit | _ => false end.

(** [v === n] for a possibly undefined number [v]: the test a [switch]
    performs against each [case] label in turn. *)
Definition strict_eq_number (v : option Z) (n : Z) : bool :=
  match v with Some m => Z.eqb m n | None => false end.

(** [n || d] on numbers. *)
Definition number_or (n d : Z) : Z := if Z.eqb n 0 then d else n.

(** ** Error classification *)

Section Classification.
Context (JSON : JsonFacility).

(** The [if (responseBody) { try { ... } catch { ... } }] block that
    computes [errorData]; the conditional on [typeof responseBody] is the
    match on [JStr]. *)
Definition decode_body (responseBody : JsValue) : JsValue :=
  if truthy responseBody then
    match responseBody with
    | JStr raw =>
        match JSON_parse JSON raw with
        | Some parsed => parsed
        | None => JObj [("message", responseBody)]
        end
    | _ => responseBody
    end
  else JObj [].

(** [errorData.message || errorData.error || error.message || '...'] *)
Definition extract_message (errorData : JsValue) (error : TransportError)
    : Completion RuntimeError JsValue :=
  m ← get "message" errorData;
  if truthy m then Returns m else
  e ← get "error" errorData;
  Returns (e ||| JStr (err_message error) ||| JStr "An unknown error occurred").

(** [error.response?.body || error.response?.text] *)
Definition response_body (error : TransportError) : JsValue :=
  default JUndefined (body <$> err_response error)
  ||| default JUndefined (text <$> err_response error).

Definition createApiError (error : TransportError) (requestInfo : RequestInfo)
    : Completion RuntimeError ElmapiError :=
  let statusCode := status <$> err_response error in
  let responseBody := response_body error in
  let errorData := decode_body responseBody in
  message ← extract_message errorData error;
  details ← get "details" errorData;
  code ← get "code" errorData;
  let case := strict_eq_number statusCode in
  Returns
    (if case 401 then new_AuthenticationError message (Some requestInfo)
     else if case 403 then new_AuthorizationError message (Some requestInfo)
     else if case 404 then new_NotFoundError "Resource" (Some requestInfo)
     else if case 422 then new_ValidationError message details (Some requestInfo)
     else if case 429 then new_RateLimitError message (Some requestInfo)
     else if case 500 || case 502 || case 503 || case 504
     then new_ServerError message (Some requestInfo)
     else new_ElmapiError message statusCode code details (Some requestInfo)).

End Classification.

Definition createNetworkError (error : TransportError) (requestInfo : RequestInfo)
    : ElmapiError :=
  if strict_eq_string (err_code error) "ECONNABORTED" || truthy (err_timeout error)
  then new_TimeoutError (number_or (info_timeout requestInfo) 30000) (Some requestInfo)
  else if strict_eq_string (err_code error) "ENOTFOUND"
          || strict_eq_string (err_code error) "ECONNREFUSED"
  then new_NetworkError
         (JStr "Unable to connect to the server. Please check your internet connection and the API URL.")
         (Some requestInfo)
  else new_NetworkError
         (JStr (err_message error) ||| JStr "Network error occurred")
         (Some requestInfo).

(** ** The superagent request builder *)

(** What a superagent request has accumulated when it is awaited. *)
Record Request : Type := mkRequest {
  req_method : string;
  req_url : string;
  req_header : gmap string string;
  req_query : list JsValue;
  req_send : option JsValue;
  req_timeout : option Z;
  req_attach : list (string * JsValue);
  req_field : list (string * JsValue)
}.

Module Agent.

(** [superagent(method, url)] *)
Definition request (method url : string) : Request :=
  {| req_method := method; req_url := url; req_header := ∅;
     req_query := []; req_send := None; req_timeout := None;
     req_attach := []; req_field := [] |}.

(** [superagent.post(url)] *)
Definition post (url : string) : Request := request "POST" url.

(** [.set(field, value)] *)
Definition set (r : Request) (field value : string) : Request :=
  {| req_method := req_method r; req_url := req_url r;
     req_header := <[field := value]> (req_header r);
     req_query := req_query r; req_send := req_send r;
     req_timeout := req_timeout r;
     req_attach := req_attach r; req_field := req_field r |}.

(** [.query(params)] *)
Definition query (r : Request) (params : JsValue) : Request :=
  {| req_method := req_method r; req_url := req_url r;
     req_header := req_header r;
     req_query := req_query r ++ [params]; req_send := req_send r;
     req_timeout := req_timeout r;
     req_attach := req_attach r; req_field := req_field r |}.

(** [.send(data)] *)
Definition send (r : Request) (data : JsValue) : Request :=
  {| req_method := req_method r; req_url := req_url r;
     req_header := req_header r;
     req_query := req_query r; req_send := Some data;
     req_timeout := req_timeout r;
     req_attach := req_attach r; req_field := req_field r |}.

(** [.timeout(ms)] *)
Definition timeout (r : Request) (ms : Z) : Request :=
  {| req_method := req_method r; req_url := req_url r;
     req_header := req_header r;
     req_query := req_query r; req_send := req_send r;
     req_timeout := Some ms;
     req_attach := req_attach r; req_field := req_field r |}.

(** [.attach(field, file)] *)
Definition attach (r : Request) (field : string) (file : JsValue) : Request :=
  {| req_method := req_method r; req_url := req_url r;
     req_header := req_header r;
     req_query := req_query r; req_send := req_send r;
     req_timeout := req_timeout r;
     req_attach := req_attach r ++ [(field, file)]; req_field := req_field r |}.

(** [.field(name, value)] *)
Definition field (r : Request) (name : string) (value : JsValue) : Request :=
  {| req_method := req_method r; req_url := req_url r;
     req_header := req_header r;
     req_query := req_query r; req_send := req_send r;
     req_timeout := req_timeout r;
     req_attach := req_attach r; req_field := req_field r ++ [(name, value)] |}.

End Agent.

(** The value of query parameter [k] among the objects handed to
    [.query(...)]; later calls override earlier ones. *)
Definition query_param (k : string) (r : Request) : option JsValue :=
  foldl (fun acc params =>
           match params with
           | JObj props => match assoc k props with Some v => Some v | None => acc end
           | _ => acc
           end) None (req_query r).

(** How an awaited request settles. *)
Inductive Settlement : Type :=
| Fulfilled (response : Response)
| Rejected (error : TransportError).

(** ** Asynchronous computations *)

(** An [async] function body: either it has settled with [r], or it is
    suspended on [await request] and resumes with the settlement. *)
Inductive Async (R : Type) : Type :=
| Settled (r : R)
| Await (request : Request) (resume : Settlement -> Async R).
Arguments Settled {R} r.
Arguments Await {R} request resume.

(** Running against a transport, and the requests issued on the way. *)
Fixpoint run {R} (transport : Request -> Settlement) (m : Async R) : R :=
  match m with
  | Settled r => r
  | Await request resume => run transport (resume (transport request))
  end.

Fixpoint issued {R} (transport : Request -> Settlement) (m : Async R)
    : list Request :=
  match m with
  | Settled _ => []
  | Await request resume => request :: issued transport (resume (transport request))
  end.

(** Whatever a method may throw. *)
Inductive Exception : Type :=
| SdkError (e : ElmapiError)
| JsError (e : RuntimeError).

(** [throw f(...)] where evaluating the operand may itself throw. *)
Definition throw_result {A} (c : Completion RuntimeError ElmapiError)
    : Completion Exception A :=
  match c with
  | Returns e => Throws (SdkError e)
  | Throws t => Throws (JsError t)
  end.

(** ** The client *)

Record ApiConfig : Type := mkApiConfig {
  config_basePath : string;
  config_accessToken : option string;
  config_projectId : string;
  config_timeout : option Z
}.

Record ApiClient : Type := mkApiClient {
  basePath : string;
  accessToken : string;
  projectId : string;
  timeout : Z
}.

(** [s.replace(/\/+$/, '')]: the pattern is anchored at the end of the
    input, so its leftmost match is the whole run of solidus characters
    that ends [s]; that run is removed. *)
Fixpoint strip_trailing_slashes (s : string) : string :=
  match s with
  | EmptyString => EmptyString
  | String c rest =>
      let rest' := strip_trailing_slashes rest in
      if Ascii.eqb c "/" && String.eqb rest' EmptyString then EmptyString
      else String c rest'
  end.

(** [x || d] for an optional string and an optional number: a missing
    property reads as [undefined], which is falsy like [''] and [0]. *)
Definition optional_string_or (x : option string) (d : string) : string :=
  match x with
  | Some s => if truthy (JStr s) then s else d
  | None => d
  end.

Definition optional_number_or (x : option Z) (d : Z) : Z :=
  match x with
  | Some n => number_or n d
  | None => d
  end.

(** The constructor of [ApiClient]. *)
Definition new_ApiClient (config : ApiConfig) : ApiClient :=
  {| basePath := strip_trailing_slashes (config_basePath config);
     accessToken := optional_string_or (config_accessToken config) EmptyString;
     projectId := config_projectId config;
     timeout := optional_number_or (config_timeout config) 30000 |}.

(** A method of [ApiClient]: it receives [this] and, once settled, yields
    its completion together with [this] as the method left it. *)
Definition Method (A : Type) : Type :=
  ApiClient -> Async (Completion Exception A * ApiClient).

(** [try { body } catch (error) { handler }] around an awaited call. *)
Fixpoint try_catch {A} (body : Async (Completion Exception A * ApiClient))
    (handler : Exception -> Method A) : Async (Completion Exception A * ApiClient) :=
  match body with
  | Settled (Returns v, this) => Settled (Returns v, this)
  | Settled (Throws error, this) => handler error this
  | Await request resume =>
      Await request (fun settlement => try_catch (resume settlement) handler)
  end.

(** [error instanceof NotFoundError] on a caught value. *)
Definition is_NotFoundError (error : Exception) : bool :=
  match error with
  | SdkError e => instanceof e NotFoundErrorClass
  | JsError _ => false
  end.

(** [error.requestInfo] on a caught SDK error. *)
Definition requestInfo_of (error : Exception) : option RequestInfo :=
  match error with
  | SdkError e => requestInfo e
  | JsError _ => None
  end.

Section Client.
Context (JSON : JsonFacility).

(** The [try { const response = await request; return response.body; }
    catch (error) { ... }] block that ends [request] and [uploadAsset],
    once the awaited request has settled. *)
Definition settle (settlement : Settlement) (requestInfo : RequestInfo)
    : Completion Exception JsValue :=
  match settlement with
  | Fulfilled response => Returns (body response)
  | Rejected error =>
      match err_response error with
      | Some _ => throw_result (createApiError JSON error requestInfo)
      | None => Throws (SdkError (createNetworkError error requestInfo))
      end
  end.

Definition exchange (request : Request) (requestInfo : RequestInfo)
    : Method JsValue := fun this =>
  Await request (fun settlement =>
    Settled (settle settlement requestInfo, this)).

Definition request (method path : string) (params data : JsValue)
    : Method JsValue := fun this =>
  let params := default_arg params (JObj []) in
  let url := basePath this +:+ path in
  let request := Agent.request method url in
  let request :=
    if truthy (JStr (accessToken this))
    then Agent.set request "Authorization" ("Bearer " +:+ accessToken this)
    else request in
  let request := Agent.set request "project-id" (projectId this) in
  let request := Agent.set request "Accept" "application/json" in
  let request := if truthy params then Agent.query request params else request in
  let request := if truthy data then Agent.send request data else request in
  let request := Agent.timeout request (timeout this) in
  let requestInfo :=
    {| info_method := method; info_url := url; info_params := params;
       info_data := data; info_timeout := timeout this |} in
  exchange request requestInfo this.

Definition getProject (params : JsValue) : Method JsValue :=
  request "GET" "/" params JUndefined.

Definition getCollections : Method JsValue :=
  request "GET" "/collections" JUndefined JUndefined.

Definition getCollection (collectionSlug : string) : Method JsValue := fun this =>
  try_catch
    (request "GET" ("/collections/" +:+ collectionSlug) JUndefined JUndefined this)
    (fun error this =>
       if is_NotFoundError error
       then Settled (Throws (SdkError
              (new_NotFoundError ("Collection '" +:+ collectionSlug +:+ "'")
                 (requestInfo_of error))), this)
       else Settled (Throws error, this)).

Definition getEntries (collectionSlug : string) (params : JsValue)
    : Method JsValue :=
  request "GET" ("/" +:+ collectionSlug) params JUndefined.

Definition getEntry (collectionSlug uuid : string) : Method JsValue := fun this =>
  try_catch
    (request "GET" ("/" +:+ collectionSlug +:+ "/" +:+ uuid) JUndefined JUndefined this)
    (fun error this =>
       if is_NotFoundError error
       then Settled (Throws (SdkError
              (new_NotFoundError
                 ("Entry '" +:+ uuid +:+ "' in collection '" +:+ collectionSlug +:+ "'")
                 (requestInfo_of error))), this)
       else Settled (Throws error, this)).

Definition createEntry (collectionSlug : string) (data : JsValue)
    : Method JsValue :=
  request "POST" ("/" +:+ collectionSlug) (JObj []) data.

Definition updateEntry (collectionSlug uuid : string) (data : JsValue)
    : Method JsValue :=
  request "PUT" ("/" +:+ collectionSlug +:+ "/" +:+ uuid) (JObj []) data.

Definition patchEntry (collectionSlug uuid : string) (data : JsValue)
    : Method JsValue :=
  request "PATCH" ("/" +:+ collectionSlug +:+ "/" +:+ uuid) (JObj []) data.

Definition deleteEntry (collectionSlug uuid : string) (force : JsValue)
    : Method JsValue :=
  let params := if truthy force then JObj [("force", force)] else JObj [] in
  request "DELETE" ("/" +:+ collectionSlug +:+ "/" +:+ uuid) params JUndefined.

Definition getAssets (params : JsValue) : Method JsValue :=
  request "GET" "/files" params JUndefined.

Definition getAsset (identifier : string) : Method JsValue := fun this =>
  try_catch
    (request "GET" ("/files/" +:+ identifier) JUndefined JUndefined this)
    (fun error this =>
       if is_NotFoundError error
       then Settled (Throws (SdkError
              (new_NotFoundError ("Asset '" +:+ identifier +:+ "'")
                 (requestInfo_of error))), this)
       else Settled (Throws error, this)).

Definition getAssetByFilename (filename : string) : Method JsValue := fun this =>
  try_catch
    (request "GET" ("/files/name/" +:+ filename) JUndefined JUndefined this)
    (fun error this =>
       if is_NotFoundError error
       then Settled (Throws (SdkError
              (new_NotFoundError ("Asset with filename '" +:+ filename +:+ "'")
                 (requestInfo_of error))), this)
       else Settled (Throws error, this)).

Definition uploadAsset (file metadata : JsValue) : Method JsValue := fun this =>
  let url := basePath this +:+ "/files" in
  let request := Agent.post url in
  let request :=
    if truthy (JStr (accessToken this))
    then Agent.set request "Authorization" ("Bearer " +:+ accessToken this)
    else request in
  let request := Agent.set request "project-id" (projectId this) in
  let request := Agent.attach request "file" file in
  let request :=
    if truthy metadata
    then Agent.field request "metadata" (JSON_stringify JSON metadata)
    else request in
  match get "name" file with
  | Throws e => Settled (Throws (JsError e), this)
  | Returns file_name =>
      let requestInfo :=
        {| info_method := "POST"; info_url := url; info_params := JObj [];
           info_data := JObj [("file", file_name ||| JStr "file");
                              ("metadata", metadata)];
           info_timeout := timeout this |} in
      exchange request requestInfo this
  end.

Definition deleteAsset (identifier : string) (force : JsValue)
    : Method JsValue :=
  let params := if truthy force then JObj [("force", force)] else JObj [] in
  request "DELETE" ("/files/" +:+ identifier) params JUndefined.

End Client.

(** [validateConfiguration()] *)
Definition validateConfiguration (this : ApiClient)
    : Completion Exception unit * ApiClient :=
  let errors : list string := [] in
  let errors :=
    if negb (truthy (JStr (basePath this)))
    then (errors ++ ["Base path is required"])%list else errors in
  let errors :=
    if negb (truthy (JStr (projectId this)))
    then (errors ++ ["Project ID is required"])%list else errors in
  if (0 <? Z.of_nat (length errors))%Z
  then (Throws (SdkError
          (new_ValidationError
             (JStr ("Invalid client configuration: " +:+ String.concat ", " errors))
             (JObj [("errors", JArr (JStr <$> errors))])
             None)), this)
  else (Returns tt, this).

(** [getDebugInfo()] *)
Definition getDebugInfo (this : ApiClient)
    : Completion Exception JsValue * ApiClient :=
  (Returns (JObj [("basePath", JStr (basePath this));
                  ("hasAccessToken", JBool (truthy (JStr (accessToken this))));
                  ("projectId", JStr (projectId this));
                  ("timeout", JNum (timeout this))]), this).

(** [createClient(baseUrl, apiToken, projectId, config = {})]; of [config]
    only [config.timeout] is read. *)
Definition createClient (baseUrl apiToken projectId : string)
    (config_timeout : option Z) : Completion Exception ApiClient :=
  let client :=
    new_ApiClient
      {| config_basePath := baseUrl;
         config_accessToken := Some apiToken;
         config_projectId := projectId;
         config_timeout := Some (optional_number_or config_timeout 30000) |} in
  match validateConfiguration client with
  | (Returns _, client) => Returns client
  | (Throws error, _) =>
      match error with
      | SdkError e =>
          if instanceof e ValidationErrorClass then Throws error
          else Throws (SdkError (new_ValidationError
                 (JStr "Failed to validate client configuration") JUndefined None))
      | JsError _ =>
          Throws (SdkError (new_ValidationError
            (JStr "Failed to validate client configuration") JUndefined None))
      end
  end.

(** ** The calls a caller can make *)

Inductive Operation : Type :=
| Call_request (method path : string) (params data : JsValue)
| Call_getProject (params : JsValue)
| Call_getCollections
| Call_getCollection (collectionSlug : string)
| Call_getEntries (collectionSlug : string) (params : JsValue)
| Call_getEntry (collectionSlug uuid : string)
| Call_createEntry (collectionSlug : string) (data : JsValue)
| Call_updateEntry (collectionSlug uuid : string) (data : JsValue)
| Call_patchEntry (collectionSlug uuid : string) (data : JsValue)
| Call_deleteEntry (collectionSlug uuid : string) (force : JsValue)
| Call_getAssets (params : JsValue)
| Call_getAsset (identifier : string)
| Call_getAssetByFilename (filename : string)
| Call_uploadAsset (file metadata : JsValue)
| Call_deleteAsset (identifier : string) (force : JsValue).

Definition call (JSON : JsonFacility) (op : Operation) : Method JsValue :=
  match op with
  | Call_request method path params data => request JSON method path params data
  | Call_getProject params => getProject JSON params
  | Call_getCollections => getCollections JSON
  | Call_getCollection slug => getCollection JSON slug
  | Call_getEntries slug params => getEntries JSON slug params
  | Call_getEntry slug uuid => getEntry JSON slug uuid
  | Call_createEntry slug data => createEntry JSON slug data
  | Call_updateEntry slug uuid data => updateEntry JSON slug uuid data
  | Call_patchEntry slug uuid data => patchEntry JSON slug uuid data
  | Call_deleteEntry slug uuid force => deleteEntry JSON slug uuid force
  | Call_getAssets params => getAssets JSON params
  | Call_getAsset identifier => getAsset JSON identifier
  | Call_getAssetByFilename filename => getAssetByFilename JSON filename
  | Call_uploadAsset file metadata => uploadAsset JSON file metadata
  | Call_deleteAsset identifier force => deleteAsset JSON identifier force
  end.

(** ** A reference JSON facility

    An executable instance of [JsonFacility] over the model's values, used
    to evaluate the pipeline on concrete exchanges.  The decoder follows
    the JSON grammar for [null], booleans, strings, arrays, objects and
    integer literals; a number literal with a fraction or an exponent has
    no counterpart in [JsValue], and an escape of a surrogate code unit has
    none in byte strings, so texts containing them lie outside its domain,
    as do integer literals too large for a double to hold exactly.
    The general results below quantify over every facility and do not
    depend on this instance. *)
Module ReferenceJson.
Local Open Scope Z_scope.

Definition is_space (c : ascii) : bool :=
  let n := nat_of_ascii c in
  (n =? 32)%nat || (n =? 9)%nat || (n =? 10)%nat || (n =? 13)%nat.

Definition is_digit (c : ascii) : bool :=
  let n := nat_of_ascii c in (48 <=? n)%nat && (n <=? 57)%nat.

Definition digit_value (c : ascii) : Z := Z.of_nat (nat_of_ascii c) - 48.

Fixpoint skip_space (s : string) : string :=
  match s with
  | String c rest => if is_space c then skip_space rest else s
  | EmptyString => s
  end.

Fixpoint strip_prefix (p s : string) : option string :=
  match p, s with
  | EmptyString, _ => Some s
  | String a p', String b s' => if Ascii.eqb a b then strip_prefix p' s' else None
  | String _ _, EmptyString => None
  end.

(** The digits at the head of [s], accumulated in base ten. *)
Fixpoint read_digits (acc : Z) (s : string) : Z * string :=
  match s with
  | String c rest =>
      if is_digit c then read_digits (10 * acc + digit_value c) rest
      else (acc, s)
  | EmptyString => (acc, s)
  end.

(** [int] of the grammar: [0], or a non-zero digit followed by digits;
    the literal must not continue with a fraction or an exponent. *)
Definition read_natural (s : string) : option (Z * string) :=
  match s with
  | String c rest =>
      if negb (is_digit c) then None
      else
        let '(n, rest') :=
          if Ascii.eqb c "0" then (0, rest) else read_digits (digit_value c) rest in
        match rest' with
        | String d _ =>
            if is_digit d || Ascii.eqb d "." || Ascii.eqb d "e" || Ascii.eqb d "E"
            then None else Some (n, rest')
        | EmptyString => Some (n, rest')
        end
  | EmptyString => None
  end.

Definition hex_value (c : ascii) : option Z :=
  let n := nat_of_ascii c in
  if (48 <=? n)%nat && (n <=? 57)%nat then Some (Z.of_nat n - 48)
  else if (65 <=? n)%nat && (n <=? 70)%nat then Some (Z.of_nat n - 55)
  else if (97 <=? n)%nat && (n <=? 102)%nat then Some (Z.of_nat n - 87)
  else None.

Definition byte (n : Z) : ascii := ascii_of_nat (Z.to_nat n).

(** UTF-8 encoding of a code point of the basic plane. *)
Definition utf8 (cp : Z) : option string :=
  if cp <? 128 then Some (String (byte cp) EmptyString)
  else if cp <? 2048 then
    Some (String (byte (192 + cp / 64)) (String (byte (128 + cp mod 64)) EmptyString))
  else if (55296 <=? cp) && (cp <=? 57343) then None
  else
    Some (String (byte (224 + cp / 4096))
           (String (byte (128 + (cp / 64) mod 64))
             (String (byte (128 + cp mod 64)) EmptyString))).

Definition simple_escape (c : ascii) : option ascii :=
  let n := nat_of_ascii c in
  if (n =? 34)%nat then Some c            (* quotation mark *)
  else if (n =? 92)%nat then Some c       (* reverse solidus *)
  else if (n =? 47)%nat then Some c       (* solidus *)
  else if (n =? 98)%nat then Some (ascii_of_nat 8)
  else if (n =? 102)%nat then Some (ascii_of_nat 12)
  else if (n =? 110)%nat then Some (ascii_of_nat 10)
  else if (n =? 114)%nat then Some (ascii_of_nat 13)
  else if (n =? 116)%nat then Some (ascii_of_nat 9)
  else None.

(** The characters of a string literal after its opening quote, up to
    and including the closing quote. *)
Fixpoint read_string (s : string) : option (string * string) :=
  match s with
  | EmptyString => None
  | String c rest =>
      if (nat_of_ascii c =? 34)%nat then Some (EmptyString, rest)
      else if (nat_of_ascii c =? 92)%nat then
        match rest with
        | String e rest' =>
            match simple_escape e with
            | Some ch =>
                '(str, r) ← read_string rest'; Some (String ch str, r)
            | None =>
                if Ascii.eqb e "u" then
                  match rest' with
                  | String h1 (String h2 (String h3 (String h4 rest''))) =>
                      a ← hex_value h1; b ← hex_value h2;
                      c ← hex_value h3; d ← hex_value h4;
                      enc ← utf8 (4096 * a + 256 * b + 16 * c + d);
                      '(str, r) ← read_string rest'';
                      Some (enc +:+ str, r)
                  | _ => None
                  end
                else None
            end
        | EmptyString => None
        end
      else if (nat_of_ascii c <? 32)%nat then None
      else '(str, r) ← read_string rest; Some (String c str, r)
  end.

(** Assignment to a property: an existing key keeps its position. *)
Fixpoint put (k : string) (v : JsValue) (props : list (string * JsValue))
    : list (string * JsValue) :=
  match props with
  | [] => [(k, v)]
  | (k', v') :: rest =>
      if String.eqb k k' then (k, v) :: rest else (k', v') :: put k v rest
  end.

Section Loops.
Context (read_value : string -> option (JsValue * string)).

(** Elements after [[], at least one. *)
Fixpoint read_elements (n : nat) (s : string) : option (list JsValue * string) :=
  match n with
  | O => None
  | S n' =>
      '(v, rest) ← read_value s;
      match skip_space rest with
      | String c rest' =>
          if Ascii.eqb c "," then
            '(vs, r) ← read_elements n' rest'; Some (v :: vs, r)
          else if Ascii.eqb c "]" then Some ([v], rest')
          else None
      | EmptyString => None
      end
  end.

(** Members after [{], at least one. *)
Fixpoint read_members (n : nat) (acc : list (string * JsValue)) (s : string)
    : option (list (string * JsValue) * string) :=
  match n with
  | O => None
  | S n' =>
      match skip_space s with
      | String q rest =>
          if negb (nat_of_ascii q =? 34)%nat then None else
          '(k, rest) ← read_string rest;
          match skip_space rest with
          | String colon rest =>
              if negb (Ascii.eqb colon ":") then None else
              '(v, rest) ← read_value rest;
              let acc := put k v acc in
              match skip_space rest with
              | String c rest' =>
                  if Ascii.eqb c "," then read_members n' acc rest'
                  else if Ascii.eqb c "}" then Some (acc, rest')
                  else None
              | EmptyString => None
              end
          | EmptyString => None
          end
      | EmptyString => None
      end
  end.
End Loops.

Fixpoint read_value (fuel : nat) (s : string) : option (JsValue * string) :=
  match fuel with
  | O => None
  | S fuel' =>
      match skip_space s with
      | EmptyString => None
      | String c rest =>
          if Ascii.eqb c "n" then r ← strip_prefix "ull" rest; Some (JNull, r)
          else if Ascii.eqb c "t" then r ← strip_prefix "rue" rest; Some (JBool true, r)
          else if Ascii.eqb c "f" then r ← strip_prefix "alse" rest; Some (JBool false, r)
          else if (nat_of_ascii c =? 34)%nat then
            '(str, r) ← read_string rest; Some (JStr str, r)
          else if Ascii.eqb c "[" then
            match skip_space rest with
            | String c' rest' =>
                if Ascii.eqb c' "]" then Some (JArr [], rest')
                else '(vs, r) ← read_elements (read_value fuel') fuel' rest;
                     Some (JArr vs, r)
            | EmptyString => None
            end
          else if Ascii.eqb c "{" then
            match skip_space rest with
            | String c' rest' =>
                if Ascii.eqb c' "}" then Some (JObj [], rest')
                else '(ps, r) ← read_members (read_value fuel') fuel' [] rest;
                     Some (JObj ps, r)
            | EmptyString => None
            end
          else if Ascii.eqb c "-" then
            '(n, r) ← read_natural rest; Some (JNum (- n), r)
          else
            '(n, r) ← read_natural (String c rest); Some (JNum n, r)
      end
  end.

Definition parse (text : string) : option JsValue :=
  '(v, rest) ← read_value (S (String.length text)) text;
  match skip_space rest with
  | EmptyString => Some v
  | String _ _ => None
  end.

(** Encoding. *)
Definition hex_digit (n : Z) : ascii :=
  byte (if n <? 10 then 48 + n else 87 + n).

Fixpoint quote_chars (s : string) : string :=
  match s with
  | EmptyString => EmptyString
  | String c rest =>
      let n := nat_of_ascii c in
      let tail := quote_chars rest in
      if (n =? 34)%nat then String (ascii_of_nat 92) (String c tail)
      else if (n =? 92)%nat then String c (String c tail)
      else if (n =? 8)%nat then String (ascii_of_nat 92) (String "b" tail)
      else if (n =? 12)%nat then String (ascii_of_nat 92) (String "f" tail)
      else if (n =? 10)%nat then String (ascii_of_nat 92) (String "n" tail)
      else if (n =? 13)%nat then String (ascii_of_nat 92) (String "r" tail)
      else if (n =? 9)%nat then String (ascii_of_nat 92) (String "t" tail)
      else if (n <? 32)%nat then
        String (ascii_of_nat 92) (String "u" (String "0" (String "0"
          (String (hex_digit (Z.of_nat n / 16))
             (String (hex_digit (Z.of_nat n mod 16)) tail)))))
      else String c tail
  end.

Definition quote (s : string) : string :=
  String (ascii_of_nat 34) (quote_chars s +:+ String (ascii_of_nat 34) EmptyString).

Fixpoint encode (v : JsValue) : option string :=
  match v with
  | JUndefined => None
  | JNull => Some "null"
  | JBool true => Some "true"
  | JBool false => Some "false"
  | JNum n => Some (pretty n)
  | JStr s => Some (quote s)
  | JArr items =>
      Some ("[" +:+ String.concat ","
              (map (fun x => default "null" (encode x)) items) +:+ "]")
  | JObj props =>
      Some ("{" +:+ String.concat ","
              (omap (fun kv => match encode (snd kv) with
                               | Some t => Some (quote (fst kv) +:+ ":" +:+ t)
                               | None => None
                               end) props) +:+ "}")
  end.

Definition stringify (v : JsValue) : JsValue :=
  match encode v with
  | Some t => JStr t
  | None => JUndefined
  end.

Definition JSON : JsonFacility :=
  {| JSON_parse := parse; JSON_stringify := stringify |}.

End ReferenceJson.

(** ** Vocabulary of the statements *)

(** The message the classifier settles on when the decoded body can be
    read: the first truthy value of the chain. *)
Definition chosen_message (errorData : JsValue) (error : TransportError) : JsValue :=
  prop "message" errorData ||| prop "error" errorData
  ||| JStr (err_message error) ||| JStr "An unknown error occurred".

(** A field that is a string when it is present at all. *)
Definition string_if_present (v : JsValue) : Prop :=
  match v with
  | JUndefined | JStr _ => True
  | _ => False
  end.

(** Decoded bodies of the shape the API documents ([ApiErrorResponse]):
    not [null], with textual [message] and [error]. *)
Definition readable (errorData : JsValue) : Prop :=
  nullish errorData = false
  /\ string_if_present (prop "message" errorData)
  /\ string_if_present (prop "error" errorData).

(** A failed exchange that carries a response. *)
Definition failed_with (response : Response) (message : string) : TransportError :=
  {| err_response := Some response;
     err_code := JUndefined;
     err_timeout := JUndefined;
     err_message := message |}.

(** The same failed exchange, had the server answered with status [s]. *)
Definition with_status (s : Z) (error : TransportError) : TransportError :=
  {| err_response :=
       (fun r => {| status := s; body := body r; text := text r |})
         <$> err_response error;
     err_code := err_code error;
     err_timeout := err_timeout error;
     err_message := err_message error |}.

(** Sample values for concrete evaluations. *)
Definition sample_info : RequestInfo :=
  {| info_method := "GET";
     info_url := "https://cms.example/api/collections/missing";
     info_params := JObj [];
     info_data := JUndefined;
     info_timeout := 30000 |}.

(** A 401 answer whose JSON body is the literal [null]: superagent decodes
    [body] to [null] and keeps the raw [text]. *)
Definition null_body_401 : TransportError :=
  failed_with {| status := 401; body := JNull; text := JStr "null" |} "Unauthorized".

(** A 404 answer with an HTML page for a body. *)
Definition html_404 : TransportError :=
  failed_with {| status := 404; body := JUndefined;
                 text := JStr "<html>Not Found</html>" |} "Not Found".

(** A 502 answer from a gateway, plain text. *)
Definition gateway_502 : TransportError :=
  failed_with {| status := 502; body := JNull;
                 text := JStr "Bad Gateway" |} "Bad Gateway".

Definition sample_client : ApiClient :=
  new_ApiClient {| config_basePath := "https://cms.example/api/";
                   config_accessToken := Some "secret";
                   config_projectId := "p-1";
                   config_timeout := Some 5000 |}.

(** A transport that settles every request the same way. *)
Definition always (settlement : Settlement) : Request -> Settlement :=
  fun _ => settlement.

(** What superagent rejects with when its timer fires. *)
Definition timed_out_error : TransportError :=
  {| err_response := None;
     err_code := JStr "ECONNABORTED";
     err_timeout := JNum 5000;
     err_message := "Timeout of 5000ms exceeded" |}.

(** A [File] to upload. *)
Definition sample_file : JsValue := JObj [("name", JStr "logo.png")].

(** What the header claim asks of a request issued on behalf of [this]. *)
Definition identified (this : ApiClient) (req : Request) : Prop :=
  req_header req !! "project-id" = Some (projectId this)
  /\ req_header req !! "Authorization"
     = (if truthy (JStr (accessToken this))
        then Some ("Bearer " +:+ accessToken this) else None).

(** The two conditions [createNetworkError] tests on a transport error. *)
Definition indicates_timeout (error : TransportError) : bool :=
  strict_eq_string (err_code error) "ECONNABORTED" || truthy (err_timeout error).

Definition indicates_unreachable (error : TransportError) : bool :=
  strict_eq_string (err_code error) "ENOTFOUND"
  || strict_eq_string (err_code error) "ECONNREFUSED".

(** A quotation mark, and a JSON text for an error body with a message. *)
Definition dq : string := String (ascii_of_nat 34) EmptyString.

Definition invalid_token_text : string :=
  "{" +:+ dq +:+ "message" +:+ dq +:+ ":" +:+ dq +:+ "Invalid token" +:+ dq
  +:+ "," +:+ dq +:+ "code" +:+ dq +:+ ":" +:+ dq +:+ "E_TOKEN" +:+ dq +:+ "}".

(** A 401 answer with that body, as a browser transport reports it when
    the content type is not JSON: no decoded [body], the raw [text]. *)
Definition invalid_token_401 : TransportError :=
  failed_with {| status := 401; body := JNull; text := JStr invalid_token_text |}
    "Unauthorized".

(** A run of [k] solidus characters. *)
Fixpoint slashes (k : nat) : string :=
  match k with
  | O => EmptyString
  | S k' => String "/" (slashes k')
  end.

Fixpoint ends_with_slash (s : string) : bool :=
  match s with
  | EmptyString => false
  | String c EmptyString => Ascii.eqb c "/"
  | String _ rest => ends_with_slash rest
  end.

(** Whether a call gets as far as awaiting its request: [uploadAsset]
    reads [file.name] first. *)
Definition reaches_transport (op : Operation) : bool :=
  match op with
  | Call_uploadAsset file _ => negb (nullish file)
  | _ => true
  end.

(** ** Vocabulary of the further results *)

(** The same failed exchange with another raw [text] on the response. *)
Definition with_text (t : JsValue) (error : TransportError) : TransportError :=
  {| err_response :=
       (fun r => {| status := status r; body := body r; text := t |})
         <$> err_response error;
     err_code := err_code error;
     err_timeout := err_timeout error;
     err_message := err_message error |}.

(** The [data] argument of the calls that have one. *)
Definition data_argument (op : Operation) : option JsValue :=
  match op with
  | Call_request _ _ _ data
  | Call_createEntry _ data
  | Call_updateEntry _ _ data
  | Call_patchEntry _ _ data => Some data
  | _ => None
  end.

Definition is_upload (op : Operation) : bool :=
  match op with Call_uploadAsset _ _ => true | _ => false end.

(** A 401 answer the way the Node transport reports a plain-text body:
    [body] is an empty object, the page is in [text]. *)
Definition plain_text_401 : TransportError :=
  failed_with {| status := 401; body := JObj [];
                 text := JStr "Unauthorized access" |} "Unauthorized".

(** A client whose project identifier was blanked after construction. *)
Definition blanked_client : ApiClient :=
  {| basePath := "https://cms.example/api";
     accessToken := "secret";
     projectId := EmptyString;
     timeout := 30000 |}.

(** A successful answer. *)
Definition ok_response : Response :=
  {| status := 200;
     body := JObj [("data", JArr [JNum 1; JNum 2])];
     text := JStr "-" |}.

(** ** Results on classification *)

Section ClassificationFacts.
Context (JSON : JsonFacility).

Lemma get_readable k d :
  nullish d = false -> get k d = Returns (prop k d).
Proof. unfold get. intros ->. reflexivity. Qed.

Lemma get_nullish k d :
  nullish d = true -> get k d = Throws (TypeError k).
Proof. unfold get. intros ->. reflexivity. Qed.

Lemma extract_message_chain d error :
  nullish d = false ->
  extract_message d error = Returns (chosen_message d error).
Proof.
  intros Hd. unfold extract_message, chosen_message.
  rewrite !(get_readable _ _ Hd). cbn. unfold js_or.
  destruct (truthy (prop "message" d)) eqn:Hm; rewrite ?Hm; reflexivity.
Qed.

(** When the decoded body can be read, the classifier of the model
    returns, and the result is the one spelled out by the switch.  (With
    a [readable] body the message is a string, and the program returns
    the same.) *)
Lemma createApiError_readable error requestInfo :
  let d := decode_body JSON (response_body error) in
  let message := chosen_message d error in
  let statusCode := status <$> err_response error in
  let case := strict_eq_number statusCode in
  nullish d = false ->
  createApiError JSON error requestInfo =
  Returns
    (if case 401 then new_AuthenticationError message (Some requestInfo)
     else if case 403 then new_AuthorizationError message (Some requestInfo)
     else if case 404 then new_NotFoundError "Resource" (Some requestInfo)
     else if case 422
     then new_ValidationError message (prop "details" d) (Some requestInfo)
     else if case 429 then new_RateLimitError message (Some requestInfo)
     else if case 500 || case 502 || case 503 || case 504
     then new_ServerError message (Some requestInfo)
     else new_ElmapiError message statusCode (prop "code" d) (prop "details" d)
            (Some requestInfo)).
Proof.
  intros d message statusCode case Hd. unfold createApiError. fold d.
  rewrite (extract_message_chain _ _ Hd), !(get_readable _ _ Hd).
  reflexivity.
Qed.

Lemma strict_eq_number_true v n :
  strict_eq_number v n = true <-> v = Some n.
Proof.
  destruct v as [m|]; cbn; [|split; discriminate].
  rewrite Z.eqb_eq. split; congruence.
Qed.

(** The table of the classifier, status by status, for a readable
    decoded body. *)
Lemma createApiError_table error info :
  let d := decode_body JSON (response_body error) in
  let s := status <$> err_response error in
  readable d ->
  exists e,
    createApiError JSON error info = Returns e
    /\ requestInfo e = Some info
    /\ (s = Some 401 -> constructor_of e = AuthenticationErrorClass)
    /\ (s = Some 403 -> constructor_of e = AuthorizationErrorClass)
    /\ (s = Some 404 -> e = new_NotFoundError "Resource" (Some info))
    /\ (s = Some 422 ->
        constructor_of e = ValidationErrorClass /\ details e = prop "details" d)
    /\ (s = Some 429 -> constructor_of e = RateLimitErrorClass)
    /\ (s = Some 500 \/ s = Some 502 \/ s = Some 503 \/ s = Some 504 ->
        constructor_of e = ServerErrorClass)
    /\ (Forall (fun k => s <> Some k) [401; 403; 404; 422; 429; 500; 502; 503; 504] ->
        constructor_of e = ElmapiErrorClass
        /\ statusCode e = s
        /\ code e = prop "code" d
        /\ details e = prop "details" d).
Proof.
  intros d s (Hd & _ & _).
  rewrite (createApiError_readable error info Hd). fold d s.
  clearbody s d.
  eexists. split; [reflexivity|].
  split; [repeat match goal with
                 | |- context [if ?b then _ else _] => destruct b
                 end; reflexivity|].
  repeat (split; [intros ->; split; reflexivity|]).
  split; [intros [-> | [-> | [-> | ->]]]; reflexivity|].
  intros Hother.
  repeat match goal with
         | H : Forall _ (_ :: _) |- _ =>
             apply Forall_cons in H; destruct H as [? H]
         end.
  repeat match goal with
         | Hn : ?v <> Some ?k |- _ =>
             let E := fresh "E" in
             assert (E : strict_eq_number v k = false)
               by (destruct (strict_eq_number v k) eqn:E';
                   [apply strict_eq_number_true in E'; contradiction|reflexivity]);
             rewrite E; clear Hn
         end.
  repeat split.
Qed.

Lemma createApiError_unreadable error requestInfo :
  nullish (decode_body JSON (response_body error)) = true ->
  createApiError JSON error requestInfo = Throws (TypeError "message").
Proof.
  intros Hd. unfold createApiError, extract_message.
  rewrite (get_nullish "message" _ Hd). reflexivity.
Qed.

End ClassificationFacts.

(** The reference decoder and the classifier on sample exchanges. *)
Example parse_null : ReferenceJson.parse "null" = Some JNull.
Proof. reflexivity. Qed.

Example parse_markup : ReferenceJson.parse "<html>Not Found</html>" = None.
Proof. reflexivity. Qed.

Example parse_array :
  ReferenceJson.parse " [1, -20, true, null, [ ], {}] "
  = Some (JArr [JNum 1; JNum (-20); JBool true; JNull; JArr []; JObj []]).
Proof. reflexivity. Qed.

Example parse_error_body :
  ReferenceJson.parse invalid_token_text
  = Some (JObj [("message", JStr "Invalid token"); ("code", JStr "E_TOKEN")]).
Proof. reflexivity. Qed.

Example classify_invalid_token :
  createApiError ReferenceJson.JSON invalid_token_401 sample_info
  = Returns {| constructor_of := AuthenticationErrorClass;
               message := "Invalid token";
               statusCode := Some 401;
               code := JStr "AUTHENTICATION_ERROR";
               details := JUndefined;
               requestInfo := Some sample_info |}.
Proof. reflexivity. Qed.

Example strip_trailing_slashes_samples :
  strip_trailing_slashes "https://cms.example/api///" = "https://cms.example/api"
  /\ strip_trailing_slashes "/a//b/" = "/a//b"
  /\ strip_trailing_slashes "///" = EmptyString.
Proof. repeat split. Qed.

(** ** Claims on response-level classification *)

(** C1 (defect).  A failed exchange whose body is the JSON text [null]
    is not classified at all: whatever the status code, [createApiError]
    throws the runtime's [TypeError] on reading [errorData.message], where
    the claim promises the variant selected by the status code (here,
    [AuthenticationError] for 401).  The hypothesis states the one fact
    about [JSON.parse] that is used. *)
Theorem createApiError_null_body_throws
    (JSON : JsonFacility) (s : Z) (message : string) (requestInfo : RequestInfo) :
  JSON_parse JSON "null" = Some JNull ->
  createApiError JSON
    (failed_with {| status := s; body := JNull; text := JStr "null" |} message)
    requestInfo
  = Throws (TypeError "message").
Proof.
  intros Hparse. apply createApiError_unreadable.
  unfold response_body, decode_body. cbn. rewrite Hparse. reflexivity.
Qed.

Lemma createApiError_null_body_throws_witness :
  JSON_parse ReferenceJson.JSON "null" = Some JNull
  /\ createApiError ReferenceJson.JSON null_body_401 sample_info
     = Throws (TypeError "message").
Proof.
  split; [reflexivity|].
  apply (createApiError_null_body_throws ReferenceJson.JSON 401 "Unauthorized"
           sample_info).
  reflexivity.
Defined.

(** An empty string is the only falsy string. *)
Lemma truthy_string s : truthy (JStr s) = true <-> s <> EmptyString.
Proof.
  cbn. rewrite negb_true_iff. apply String.eqb_neq.
Qed.

Lemma chosen_message_text d error :
  string_if_present (prop "message" d) ->
  string_if_present (prop "error" d) ->
  exists s, chosen_message d error = JStr s /\ s <> EmptyString.
Proof.
  intros Hm He. unfold chosen_message, js_or.
  destruct (prop "message" d) as [| | | |m| |]; try contradiction;
    destruct (prop "error" d) as [| | | |e| |]; try contradiction;
    try destruct m; try destruct e; destruct (err_message error); cbn;
    eexists; (split; [reflexivity|discriminate]).
Qed.

(** The shapes of body that are always readable. *)
Lemma unparsable_body_readable (JSON : JsonFacility) raw :
  JSON_parse JSON raw = None -> readable (decode_body JSON (JStr raw)).
Proof.
  intros Hparse. unfold decode_body. rewrite Hparse.
  destruct (truthy (JStr raw)); repeat split; exact I.
Qed.

Lemma absent_body_readable (JSON : JsonFacility) responseBody :
  truthy responseBody = false -> readable (decode_body JSON responseBody).
Proof.
  intros Hb. unfold decode_body. rewrite Hb. repeat split; exact I.
Qed.

Lemma chosen_message_unparsable (JSON : JsonFacility) error raw :
  response_body error = JStr raw -> raw <> EmptyString -> JSON_parse JSON raw = None ->
  chosen_message (decode_body JSON (response_body error)) error = JStr raw.
Proof.
  intros -> Hne Hparse. apply truthy_string in Hne.
  unfold decode_body. rewrite Hne, Hparse.
  unfold chosen_message, js_or. cbn [prop assoc String.eqb Ascii.eqb default].
  cbn -[truthy]. rewrite !Hne. reflexivity.
Qed.

(** The cases of the switch exclude one another. *)
Lemma strict_eq_number_exclusive v a b :
  a <> b -> strict_eq_number v a = true -> strict_eq_number v b = false.
Proof.
  destruct v as [m|]; cbn; [|discriminate].
  intros Hab Ha. apply Z.eqb_eq in Ha. subst m. apply Z.eqb_neq, Hab.
Qed.

(** C6 (as amended).  For every status code and every response body that
    is absent, is text that does not parse, or decodes to a value other
    than [null] whose [message] and [error] fields are strings when
    present, [createApiError] returns an error without failing.  Its
    message is never empty: it is ["Resource not found."] when the status
    is 404, and otherwise the first truthy value among the body's
    [message] field, its [error] field, the transport-provided message and
    ["An unknown error occurred"]; for non-empty text that does not parse
    this is the raw text. *)
Theorem createApiError_degrades_gracefully
    (JSON : JsonFacility) (error : TransportError) (requestInfo : RequestInfo) :
  let d := decode_body JSON (response_body error) in
  let not_found := strict_eq_number (status <$> err_response error) 404 in
  (truthy (response_body error) = false -> readable d)
  /\ (forall raw, response_body error = JStr raw ->
                  JSON_parse JSON raw = None -> readable d)
  /\ (readable d ->
      exists e,
        createApiError JSON error requestInfo = Returns e
        /\ message e <> EmptyString
        /\ message e = (if not_found then "Resource not found."
                        else ToString (chosen_message d error))
        /\ (forall raw, response_body error = JStr raw -> raw <> EmptyString ->
                        JSON_parse JSON raw = None ->
                        not_found = false -> message e = raw)).
Proof.
  intros d not_found. split; [|split].
  - apply absent_body_readable.
  - intros raw Hraw Hparse. subst d. rewrite Hraw.
    apply unparsable_body_readable, Hparse.
  - intros (Hd & Hm & He).
    destruct (chosen_message_text d error Hm He) as (s & Hs & Hne).
    rewrite (createApiError_readable JSON error requestInfo Hd).
    fold d. rewrite Hs.
    assert (Hraw : forall raw, response_body error = JStr raw -> raw <> EmptyString ->
                               JSON_parse JSON raw = None -> s = raw).
    { intros raw Hraw Hnonempty Hparse.
      pose proof (chosen_message_unparsable JSON error raw Hraw Hnonempty Hparse)
        as Hc.
      fold d in Hc. congruence. }
    subst not_found. set (st := status <$> err_response error).
    eexists. split; [reflexivity|].
    destruct (strict_eq_number st 404) eqn:E404.
    + rewrite (strict_eq_number_exclusive st 404 401), (strict_eq_number_exclusive st 404 403)
        by (assumption || discriminate).
      cbn. repeat split; [discriminate|intros; discriminate].
    + destruct (strict_eq_number st 401); [cbn; repeat split; eauto|].
      destruct (strict_eq_number st 403); [cbn; repeat split; eauto|].
      destruct (strict_eq_number st 422); [cbn; repeat split; eauto|].
      destruct (strict_eq_number st 429); [cbn; repeat split; eauto|].
      destruct (strict_eq_number st 500 || strict_eq_number st 502
                || strict_eq_number st 503 || strict_eq_number st 504);
        cbn; repeat split; eauto.
Qed.

Lemma createApiError_degrades_gracefully_witness :
  readable (decode_body ReferenceJson.JSON (response_body gateway_502))
  /\ exists e,
       createApiError ReferenceJson.JSON gateway_502 sample_info = Returns e
       /\ message e <> EmptyString
       /\ message e = "Bad Gateway".
Proof.
  assert (Hr : readable (decode_body ReferenceJson.JSON (response_body gateway_502)))
    by (repeat split).
  split; [exact Hr|].
  destruct (createApiError_degrades_gracefully ReferenceJson.JSON gateway_502
              sample_info) as (_ & _ & H).
  destruct (H Hr) as (e & He & Hne & Hmsg & _).
  exists e. repeat split; [exact He|exact Hne|].
  rewrite Hmsg. reflexivity.
Defined.

(** C6 (as stated) fails at status 404: the body is text that does not
    parse, and the raw text is not the message of the resulting error,
    which reads ["Resource not found."] whatever the body says. *)
Lemma createApiError_404_discards_raw_text :
  JSON_parse ReferenceJson.JSON "<html>Not Found</html>" = None
  /\ exists e,
       createApiError ReferenceJson.JSON html_404 sample_info = Returns e
       /\ message e = "Resource not found."
       /\ message e <> "<html>Not Found</html>".
Proof.
  split; [reflexivity|].
  eexists. split; [reflexivity|]. split; [reflexivity|discriminate].
Qed.

(** A [message] field that is an empty array is truthy, yet its string
    conversion is empty: fields that are not strings fall outside
    [readable]. *)
Example createApiError_array_message :
  exists e,
    createApiError ReferenceJson.JSON
      (failed_with {| status := 500; body := JObj [("message", JArr [])];
                      text := JUndefined |} "Internal Server Error")
      sample_info = Returns e
    /\ message e = EmptyString.
Proof. eexists. split; reflexivity. Qed.

(** C10.  For a response with status 502, 503 or 504 the classifier
    behaves exactly as for status 500: the outcome is the same term, so
    nothing on the resulting error depends on the actual status; whenever
    an error is produced it is a [ServerError] whose [statusCode] is 500,
    not the status of the exchange; and an error is produced whenever the
    decoded body is readable (not [null], with [message] and [error]
    strings when present). *)
Theorem createApiError_server_status_collapsed
    (JSON : JsonFacility) (error : TransportError) (response : Response)
    (info : RequestInfo) :
  err_response error = Some response ->
  status response = 502 \/ status response = 503 \/ status response = 504 ->
  createApiError JSON error info
  = createApiError JSON (with_status 500 error) info
  /\ (forall e, createApiError JSON error info = Returns e ->
                constructor_of e = ServerErrorClass
                /\ statusCode e = Some 500
                /\ statusCode e <> Some (status response)
                /\ code e = JStr "SERVER_ERROR"
                /\ details e = JUndefined
                /\ requestInfo e = Some info)
  /\ (readable (decode_body JSON (response_body error)) ->
      exists e, createApiError JSON error info = Returns e).
Proof.
  intros Hresp Hstatus.
  destruct error as [resp c t m]. cbn in Hresp. subst resp.
  destruct response as [s b tx]. cbn [status] in *.
  set (error := {| err_response := Some {| status := s; body := b; text := tx |};
                   err_code := c; err_timeout := t; err_message := m |}).
  assert (Hbody : response_body (with_status 500 error) = response_body error)
    by reflexivity.
  destruct (nullish (decode_body JSON (response_body error))) eqn:Hd.
  - rewrite !createApiError_unreadable by (rewrite ?Hbody; exact Hd).
    split; [reflexivity|]. split; [intros e [=]|].
    intros (Hn & _). rewrite Hd in Hn. discriminate.
  - rewrite (createApiError_readable JSON error info Hd).
    rewrite (createApiError_readable JSON (with_status 500 error) info)
      by (rewrite Hbody; exact Hd).
    rewrite Hbody.
    assert (Hmsg : chosen_message (decode_body JSON (response_body error))
                     (with_status 500 error)
                   = chosen_message (decode_body JSON (response_body error)) error)
      by reflexivity.
    rewrite Hmsg.
    generalize (chosen_message (decode_body JSON (response_body error)) error).
    generalize (decode_body JSON (response_body error)).
    intros d msg. subst error. cbn.
    destruct Hstatus as [-> | [-> | ->]]; cbn;
      (split; [reflexivity|]; split; [|eauto]);
      intros e [= <-]; cbn; repeat split; discriminate.
Qed.

Lemma createApiError_server_status_collapsed_witness :
  exists e,
    createApiError ReferenceJson.JSON gateway_502 sample_info = Returns e
    /\ constructor_of e = ServerErrorClass
    /\ statusCode e = Some 500
    /\ statusCode e <> Some 502.
Proof.
  destruct (createApiError_server_status_collapsed ReferenceJson.JSON gateway_502
              {| status := 502; body := JNull; text := JStr "Bad Gateway" |}
              sample_info eq_refl (or_introl eq_refl))
    as (_ & Hserver & Hreturns).
  destruct (Hreturns (conj eq_refl (conj I I))) as (e & He).
  exists e. destruct (Hserver e He) as (Hc & Hs & Hn & _).
  repeat split; assumption.
Defined.

(** ** Running a call *)

Section RunningCalls.
Context (JSON : JsonFacility) (transport : Request -> Settlement).

Lemma run_exchange request info this :
  run transport (exchange JSON request info this)
  = (settle JSON (transport request) info, this).
Proof. reflexivity. Qed.

Lemma issued_exchange request info this :
  issued transport (exchange JSON request info this) = [request].
Proof. reflexivity. Qed.

Lemma run_try_catch_exchange request info this (handler : Exception -> Method JsValue) :
  run transport (try_catch (exchange JSON request info this) handler)
  = match settle JSON (transport request) info with
    | Returns v => (Returns v, this)
    | Throws error => run transport (handler error this)
    end.
Proof. cbn. destruct (settle JSON (transport request) info); reflexivity. Qed.

Lemma issued_try_catch_exchange request info this
    (handler : Exception -> Method JsValue) :
  issued transport (try_catch (exchange JSON request info this) handler)
  = request :: match settle JSON (transport request) info with
               | Returns _ => []
               | Throws error => issued transport (handler error this)
               end.
Proof. cbn. destruct (settle JSON (transport request) info); reflexivity. Qed.

(** No method assigns to a property of [this]. *)
Lemma call_preserves_this op this :
  snd (run transport (call JSON op this)) = this.
Proof.
  destruct op; cbn [call];
    try reflexivity;
    try (unfold getCollection, getEntry, getAsset, getAssetByFilename, request;
         cbn zeta; rewrite run_try_catch_exchange;
         destruct (settle JSON _ _) as [v|error]; [reflexivity|];
         destruct (is_NotFoundError error); reflexivity).
  unfold uploadAsset. cbn zeta.
  match goal with
  | |- context [get "name" ?f] => destruct (get "name" f)
  end; reflexivity.
Qed.

(** Every call awaits exactly one request, except an upload whose
    [file] is [null] or [undefined], which fails before. *)
Lemma call_issues_one op this :
  length (issued transport (call JSON op this))
  = if reaches_transport op then 1%nat else 0%nat.
Proof.
  destruct op; cbn [call reaches_transport];
    try reflexivity;
    try (unfold getCollection, getEntry, getAsset, getAssetByFilename, request;
         cbn zeta; rewrite issued_try_catch_exchange;
         destruct (settle JSON _ _) as [v|error]; [reflexivity|];
         destruct (is_NotFoundError error); reflexivity).
  unfold uploadAsset, get. cbn zeta.
  match goal with
  | |- context [nullish ?f] => destruct (nullish f)
  end; reflexivity.
Qed.

End RunningCalls.

(** ** Claims on configuration *)

Lemma strip_trailing_slashes_decompose s :
  exists k, s = strip_trailing_slashes s +:+ slashes k.
Proof.
  induction s as [|c rest [k IH]]; [exists 0%nat; reflexivity|].
  cbn [strip_trailing_slashes].
  destruct (Ascii.eqb c "/" && String.eqb (strip_trailing_slashes rest) EmptyString)
    eqn:E.
  - apply andb_true_iff in E as [Ec Er].
    apply Ascii.eqb_eq in Ec. apply String.eqb_eq in Er. subst c.
    rewrite Er in IH. exists (S k). rewrite IH at 1. reflexivity.
  - exists k. rewrite IH at 1. reflexivity.
Qed.

Lemma strip_trailing_slashes_stripped s :
  ends_with_slash (strip_trailing_slashes s) = false.
Proof.
  induction s as [|c rest IH]; [reflexivity|].
  cbn [strip_trailing_slashes].
  destruct (Ascii.eqb c "/" && String.eqb (strip_trailing_slashes rest) EmptyString)
    eqn:E; [reflexivity|].
  cbn [ends_with_slash].
  destruct (strip_trailing_slashes rest) as [|c' rest'] eqn:Er.
  - cbn in E. rewrite andb_true_r in E. exact E.
  - exact IH.
Qed.

Lemma optional_number_or_nonzero x d : d <> 0 -> optional_number_or x d <> 0.
Proof.
  intros Hd. destruct x as [n|]; cbn; [|exact Hd].
  unfold number_or. destruct (Z.eqb n 0) eqn:E; [exact Hd|].
  apply Z.eqb_neq, E.
Qed.

Lemma optional_number_or_idempotent x d :
  optional_number_or (Some (optional_number_or x d)) d = optional_number_or x d.
Proof.
  destruct x as [n|]; cbn; unfold number_or.
  - destruct (Z.eqb n 0) eqn:E; [|rewrite E; reflexivity].
    destruct (Z.eqb d 0) eqn:E'; reflexivity.
  - destruct (Z.eqb d 0) eqn:E'; reflexivity.
Qed.

(** C9 (as stated) fails for a configured timeout of zero: the client is
    built with 30000 ms. *)
Lemma createClient_zero_timeout_defaulted :
  exists client,
    createClient "https://cms.example/api/" "secret" "p-1" (Some 0)
    = Returns client
    /\ timeout client = 30000
    /\ timeout client <> 0.
Proof. eexists. split; [reflexivity|]. split; [reflexivity|discriminate]. Qed.

(** C9 (as amended).  After construction the client's base path is the
    configured base path with all trailing slashes stripped, and its
    timeout is the configured timeout when one is given and is not zero,
    and 30000 ms otherwise; no subsequent operation modifies the client.
    [createClient] builds exactly this client whenever the stripped base
    path and the project identifier are not empty. *)
Theorem client_configuration_fixed (config : ApiConfig) :
  let client := new_ApiClient config in
  (exists k, config_basePath config = basePath client +:+ slashes k)
  /\ ends_with_slash (basePath client) = false
  /\ timeout client = match config_timeout config with
                      | Some t => if Z.eqb t 0 then 30000 else t
                      | None => 30000
                      end
  /\ (forall JSON transport op,
        snd (run transport (call JSON op client)) = client)
  /\ snd (validateConfiguration client) = client
  /\ snd (getDebugInfo client) = client
  /\ (forall apiToken,
        config_accessToken config = Some apiToken ->
        basePath client <> EmptyString ->
        config_projectId config <> EmptyString ->
        createClient (config_basePath config) apiToken (config_projectId config)
          (config_timeout config) = Returns client).
Proof.
  intros client. repeat split.
  - apply strip_trailing_slashes_decompose.
  - apply strip_trailing_slashes_stripped.
  - intros JSON transport op. apply call_preserves_this.
  - unfold validateConfiguration.
    destruct (negb _), (negb _); cbn; reflexivity.
  - intros apiToken Htoken Hbase Hproject.
    unfold createClient.
    set (c := new_ApiClient _).
    assert (Hc : c = client).
    { subst c client. unfold new_ApiClient. cbn [config_basePath config_accessToken
        config_projectId config_timeout].
      rewrite optional_number_or_idempotent, Htoken. reflexivity. }
    rewrite Hc. unfold validateConfiguration.
    apply truthy_string in Hbase. rewrite Hbase.
    assert (Hp : truthy (JStr (projectId client)) = true)
      by (apply truthy_string; exact Hproject).
    rewrite Hp. reflexivity.
Qed.

Lemma client_configuration_fixed_witness :
  exists client,
    createClient "https://cms.example/api//" "secret" "p-1" (Some 5000)
    = Returns client
    /\ basePath client = "https://cms.example/api"
    /\ timeout client = 5000.
Proof.
  pose proof (client_configuration_fixed
                {| config_basePath := "https://cms.example/api//";
                   config_accessToken := Some "secret";
                   config_projectId := "p-1";
                   config_timeout := Some 5000 |}) as H.
  cbv zeta in H. destruct H as (_ & _ & _ & _ & _ & _ & Hcreate).
  eexists. split.
  - apply (Hcreate "secret"); [reflexivity|discriminate|discriminate].
  - split; reflexivity.
Defined.

(** C7.  [createClient] with an empty base path and an empty project
    identifier fails, synchronously, with a [ValidationError] whose
    details list both violations. *)
Theorem createClient_rejects_empty_configuration
    (apiToken : string) (config_timeout : option Z) :
  exists e,
    createClient EmptyString apiToken EmptyString config_timeout
    = Throws (SdkError e)
    /\ constructor_of e = ValidationErrorClass
    /\ name e = "ValidationError"
    /\ statusCode e = Some 422
    /\ code e = JStr "VALIDATION_ERROR"
    /\ details e = JObj [("errors", JArr [JStr "Base path is required";
                                         JStr "Project ID is required"])]
    /\ message e = "Invalid client configuration: Base path is required, Project ID is required".
Proof.
  eexists. split; [reflexivity|]. repeat split.
Qed.

(** ** Claims on request construction *)

(** Reduces [issued transport (call ...)] to the list it denotes. *)
Ltac expose_issued :=
  unfold getProject, getCollections, getEntries, createEntry, updateEntry,
    patchEntry, deleteEntry, getAssets, deleteAsset,
    getCollection, getEntry, getAsset, getAssetByFilename, request;
  cbn zeta;
  rewrite ?issued_try_catch_exchange, ?issued_exchange;
  repeat match goal with
         | |- context [settle ?J ?s ?i] =>
             let error := fresh "error" in
             destruct (settle J s i) as [?|error];
             [|destruct (is_NotFoundError error)]
         end;
  cbn [issued].

(** Decides the conditionals of the builder chain and evaluates the
    header table. *)
Ltac decide_builder :=
  repeat match goal with
         | |- context [if truthy ?v then _ else _] => destruct (truthy v)
         end;
  cbn [req_header req_timeout req_query req_send req_method req_url
       Agent.request Agent.post Agent.set Agent.query Agent.send
       Agent.timeout Agent.attach Agent.field].

Section RequestHeaders.
Context (JSON : JsonFacility) (transport : Request -> Settlement).

Lemma request_identified method path params data this :
  Forall (identified this)
    (issued transport (request JSON method path params data this)).
Proof.
  expose_issued. apply Forall_cons; split; [|constructor].
  unfold identified. decide_builder; split; reflexivity.
Qed.

Lemma call_identified op this :
  Forall (identified this) (issued transport (call JSON op this)).
Proof.
  destruct op; cbn [call];
    try (expose_issued;
         (apply Forall_cons; split; [|constructor]);
         unfold identified; decide_builder; split; reflexivity).
  unfold uploadAsset. cbn zeta.
  match goal with
  | |- context [get "name" ?f] => destruct (get "name" f)
  end; [|constructor].
  rewrite issued_exchange. apply Forall_cons; split; [|constructor].
  unfold identified. decide_builder; split; reflexivity.
Qed.

End RequestHeaders.

(** C2.  Every request a client operation constructs carries a
    [project-id] header equal to the client's project identifier, and an
    [Authorization: Bearer <token>] header exactly when the client holds a
    (non-empty) access token.  Each operation constructs one request; the
    only exception is an upload whose [file] cannot be read, which
    constructs none.  The client's identifier and token are the configured
    ones. *)
Theorem every_request_carries_project_and_bearer
    (JSON : JsonFacility) (transport : Request -> Settlement)
    (op : Operation) (this : ApiClient) :
  Forall (fun req =>
            req_header req !! "project-id" = Some (projectId this)
            /\ req_header req !! "Authorization"
               = (if truthy (JStr (accessToken this))
                  then Some ("Bearer " +:+ accessToken this) else None))
         (issued transport (call JSON op this))
  /\ length (issued transport (call JSON op this))
     = (if reaches_transport op then 1%nat else 0%nat)
  /\ (forall config,
        projectId (new_ApiClient config) = config_projectId config
        /\ accessToken (new_ApiClient config)
           = default EmptyString (config_accessToken config)).
Proof.
  split; [apply call_identified|]. split; [apply call_issues_one|].
  intros config. split; [reflexivity|].
  unfold new_ApiClient, optional_string_or. cbn [accessToken].
  destruct (config_accessToken config) as [token|]; [|reflexivity].
  destruct token; reflexivity.
Qed.

(** C8.  [deleteEntry(slug, uuid)] with [force] omitted constructs a
    request with no [force] query parameter; [deleteEntry(slug, uuid, true)]
    constructs one whose query parameters hold [force = true]. *)
Theorem deleteEntry_force_parameter
    (JSON : JsonFacility) (transport : Request -> Settlement)
    (collectionSlug uuid : string) (this : ApiClient) :
  (exists req,
     issued transport (deleteEntry JSON collectionSlug uuid JUndefined this) = [req]
     /\ req_method req = "DELETE"
     /\ req_url req = basePath this +:+ "/" +:+ collectionSlug +:+ "/" +:+ uuid
     /\ req_query req = [JObj []]
     /\ query_param "force" req = None)
  /\ (exists req,
        issued transport (deleteEntry JSON collectionSlug uuid (JBool true) this) = [req]
        /\ req_method req = "DELETE"
        /\ req_url req = basePath this +:+ "/" +:+ collectionSlug +:+ "/" +:+ uuid
        /\ req_query req = [JObj [("force", JBool true)]]
        /\ query_param "force" req = Some (JBool true)).
Proof.
  split; eexists; (split; [reflexivity|]);
    unfold query_param; destruct (truthy (JStr (accessToken this)));
    repeat split.
Qed.

(** C4 (defect).  The request [uploadAsset] constructs has no [Accept]
    header and no timeout, whereas every request the JSON-body executor
    [request] constructs on the same client asks for [application/json]
    and carries the client's timeout. *)
Theorem uploadAsset_omits_accept_and_timeout
    (JSON : JsonFacility) (transport : Request -> Settlement)
    (file metadata : JsValue) (this : ApiClient) :
  nullish file = false ->
  (exists req,
     issued transport (uploadAsset JSON file metadata this) = [req]
     /\ req_header req !! "Accept" = None
     /\ req_timeout req = None)
  /\ (forall method path params data,
        exists req,
          issued transport (request JSON method path params data this) = [req]
          /\ req_header req !! "Accept" = Some "application/json"
          /\ req_timeout req = Some (timeout this)).
Proof.
  intros Hfile. split.
  - unfold uploadAsset, get. cbn zeta. rewrite Hfile, issued_exchange.
    eexists. split; [reflexivity|].
    decide_builder; split; reflexivity.
  - intros method path params data. unfold request. cbn zeta.
    rewrite issued_exchange. eexists. split; [reflexivity|].
    decide_builder; split; reflexivity.
Qed.

Lemma uploadAsset_omits_accept_and_timeout_witness :
  exists req,
    issued (always (Fulfilled {| status := 201; body := JObj []; text := JStr "{}" |}))
      (uploadAsset ReferenceJson.JSON sample_file JUndefined sample_client) = [req]
    /\ req_header req !! "Accept" = None
    /\ req_timeout req = None
    /\ timeout sample_client = 5000.
Proof.
  destruct (uploadAsset_omits_accept_and_timeout ReferenceJson.JSON
              (always (Fulfilled {| status := 201; body := JObj [];
                                    text := JStr "{}" |}))
              sample_file JUndefined sample_client eq_refl)
    as ((req & Hissued & Haccept & Htimeout) & _).
  exists req. repeat split; assumption.
Defined.

(** ** Claims on the remapping of not-found errors *)

Lemma append_assoc (a b c : string) : (a +:+ b) +:+ c = a +:+ b +:+ c.
Proof.
  induction a as [|x a IH]; [reflexivity|].
  change (String x ((a +:+ b) +:+ c) = String x (a +:+ b +:+ c)).
  f_equal. exact IH.
Qed.

(** C3.  When the underlying request of [getCollection(slug)] fails with
    a [NotFoundError], [getCollection] throws a new [NotFoundError] whose
    message is [Collection '<slug>' not found.] and whose [requestInfo] is
    the one carried by the original error; whatever else the underlying
    request throws reaches the caller unmodified, as does its result. *)
Theorem getCollection_remaps_not_found
    (JSON : JsonFacility) (transport : Request -> Settlement)
    (collectionSlug : string) (this : ApiClient) :
  let underlying :=
    fst (run transport
           (request JSON "GET" ("/collections/" +:+ collectionSlug)
              JUndefined JUndefined this)) in
  let outcome := fst (run transport (getCollection JSON collectionSlug this)) in
  (forall e,
      underlying = Throws (SdkError e) ->
      instanceof e NotFoundErrorClass = true ->
      exists e',
        outcome = Throws (SdkError e')
        /\ e' = new_NotFoundError ("Collection '" +:+ collectionSlug +:+ "'")
                  (requestInfo e)
        /\ constructor_of e' = NotFoundErrorClass
        /\ message e' = "Collection '" +:+ collectionSlug +:+ "' not found."
        /\ requestInfo e' = requestInfo e)
  /\ (forall error,
        underlying = Throws error ->
        is_NotFoundError error = false ->
        outcome = Throws error)
  /\ (forall v, underlying = Returns v -> outcome = Returns v).
Proof.
  intros underlying outcome. subst underlying outcome.
  unfold getCollection, request. cbn zeta.
  rewrite run_try_catch_exchange, run_exchange. cbn [fst].
  destruct (settle JSON _ _) as [v|error]; (split; [|split]).
  - intros e [=].
  - intros error [=].
  - intros v' [= ->]. reflexivity.
  - intros e [= ->] Hnf. cbn [is_NotFoundError]. rewrite Hnf.
    eexists. split; [reflexivity|]. repeat split.
    unfold new_NotFoundError, construct. cbn [message ToString].
    rewrite !append_assoc. reflexivity.
  - intros error' [= <-] Hnf. rewrite Hnf. reflexivity.
  - intros v [=].
Qed.

Lemma getCollection_remaps_not_found_witness :
  exists e e',
    fst (run (always (Rejected html_404))
           (request ReferenceJson.JSON "GET" "/collections/missing"
              JUndefined JUndefined sample_client))
    = Throws (SdkError e)
    /\ message e = "Resource not found."
    /\ fst (run (always (Rejected html_404))
              (getCollection ReferenceJson.JSON "missing" sample_client))
       = Throws (SdkError e')
    /\ message e' = "Collection 'missing' not found."
    /\ requestInfo e' = requestInfo e.
Proof.
  destruct (getCollection_remaps_not_found ReferenceJson.JSON
              (always (Rejected html_404)) "missing" sample_client)
    as (Hremap & _ & _).
  cbv zeta in Hremap.
  eexists.
  edestruct Hremap as (e' & Houtcome & _ & _ & Hmessage & Hinfo);
    [reflexivity|reflexivity|].
  exists e'. repeat split; assumption.
Defined.

(** ** Claims on transport-level classification *)

Lemma createNetworkError_branches error info :
  let e := createNetworkError error info in
  requestInfo e = Some info
  /\ statusCode e = None
  /\ (indicates_timeout error = true ->
      e = new_TimeoutError (number_or (info_timeout info) 30000) (Some info))
  /\ (indicates_timeout error = false -> indicates_unreachable error = true ->
      constructor_of e = NetworkErrorClass
      /\ message e = "Unable to connect to the server. Please check your internet connection and the API URL.")
  /\ (indicates_timeout error = false -> indicates_unreachable error = false ->
      constructor_of e = NetworkErrorClass
      /\ message e = (if truthy (JStr (err_message error))
                      then err_message error else "Network error occurred")).
Proof.
  unfold createNetworkError, indicates_timeout, indicates_unreachable.
  destruct (strict_eq_string (err_code error) "ECONNABORTED"
            || truthy (err_timeout error));
    [repeat split; intros; discriminate|].
  destruct (strict_eq_string (err_code error) "ENOTFOUND"
            || strict_eq_string (err_code error) "ECONNREFUSED");
    [repeat split; intros; discriminate|].
  unfold js_or. destruct (truthy (JStr (err_message error)));
    repeat split; intros; discriminate.
Qed.

Lemma createNetworkError_not_NotFoundError error info :
  instanceof (createNetworkError error info) NotFoundErrorClass = false.
Proof.
  unfold createNetworkError.
  destruct (_ || _); [reflexivity|]. destruct (_ || _); reflexivity.
Qed.

(** A call whose request is rejected without a response throws what
    [createNetworkError] makes of the rejection, with a request context
    that records the client's timeout. *)
Lemma call_transport_failure (JSON : JsonFacility)
    (transport : Request -> Settlement) op this error :
  reaches_transport op = true ->
  (forall req, transport req = Rejected error) ->
  err_response error = None ->
  exists info,
    info_timeout info = timeout this
    /\ run transport (call JSON op this)
       = (Throws (SdkError (createNetworkError error info)), this).
Proof.
  intros Hreach Htransport Hresponse.
  destruct op; cbn [call reaches_transport] in *;
    try (unfold getProject, getCollections, getEntries, createEntry, updateEntry,
           patchEntry, deleteEntry, getAssets, deleteAsset, request;
         cbn zeta; rewrite run_exchange, Htransport; cbn [settle];
         rewrite Hresponse; eexists; split; [|reflexivity]; reflexivity);
    try (unfold getCollection, getEntry, getAsset, getAssetByFilename, request;
         cbn zeta; rewrite run_try_catch_exchange, Htransport; cbn [settle];
         rewrite Hresponse; cbn [is_NotFoundError];
         rewrite createNetworkError_not_NotFoundError;
         eexists; split; [|reflexivity]; reflexivity).
  unfold uploadAsset, get. cbn zeta.
  apply negb_true_iff in Hreach. rewrite Hreach.
  rewrite run_exchange, Htransport. cbn [settle]. rewrite Hresponse.
  eexists; split; [|reflexivity]; reflexivity.
Qed.

(** C5.  On a client as constructed, when the transport rejects a call
    without a response, the call throws the error classified from the
    rejection: a [TimeoutError] naming the client's timeout if the
    rejection indicates that the time budget was exceeded; otherwise a
    [NetworkError] with the connectivity message if it indicates that the
    host could not be resolved or refused the connection; otherwise a
    [NetworkError] with the transport's own message (a stock message when
    the transport gave none). *)
Theorem transport_failure_classification
    (JSON : JsonFacility) (transport : Request -> Settlement)
    (config : ApiConfig) (op : Operation) (error : TransportError) :
  let this := new_ApiClient config in
  reaches_transport op = true ->
  (forall req, transport req = Rejected error) ->
  err_response error = None ->
  exists e info,
    run transport (call JSON op this) = (Throws (SdkError e), this)
    /\ e = createNetworkError error info
    /\ requestInfo e = Some info
    /\ info_timeout info = timeout this
    /\ statusCode e = None
    /\ (indicates_timeout error = true ->
        constructor_of e = TimeoutErrorClass
        /\ message e = "Request timed out after " +:+ pretty (timeout this) +:+ "ms.")
    /\ (indicates_timeout error = false -> indicates_unreachable error = true ->
        constructor_of e = NetworkErrorClass
        /\ message e = "Unable to connect to the server. Please check your internet connection and the API URL.")
    /\ (indicates_timeout error = false -> indicates_unreachable error = false ->
        constructor_of e = NetworkErrorClass
        /\ message e = (if truthy (JStr (err_message error))
                        then err_message error else "Network error occurred")).
Proof.
  intros this Hreach Htransport Hresponse.
  destruct (call_transport_failure JSON transport op this error
              Hreach Htransport Hresponse) as (info & Htimeout & Hrun).
  destruct (createNetworkError_branches error info)
    as (Hinfo & Hstatus & Htimed & Hunreachable & Hother).
  exists (createNetworkError error info), info.
  repeat split; try assumption; try (apply Hunreachable; assumption);
    try (apply Hother; assumption).
  - rewrite (Htimed H). reflexivity.
  - rewrite (Htimed H). cbn. rewrite Htimeout.
    assert (Hnz : timeout this <> 0)
      by (apply optional_number_or_nonzero; discriminate).
    unfold number_or. apply Z.eqb_neq in Hnz. rewrite Hnz. reflexivity.
Qed.

Lemma transport_failure_classification_witness :
  exists e,
    run (always (Rejected timed_out_error))
      (getEntries ReferenceJson.JSON "posts" JUndefined sample_client)
    = (Throws (SdkError e), sample_client)
    /\ constructor_of e = TimeoutErrorClass
    /\ message e = "Request timed out after 5000ms.".
Proof.
  destruct (transport_failure_classification ReferenceJson.JSON
              (always (Rejected timed_out_error))
              {| config_basePath := "https://cms.example/api/";
                 config_accessToken := Some "secret";
                 config_projectId := "p-1";
                 config_timeout := Some 5000 |}
              (Call_getEntries "posts" JUndefined) timed_out_error
              eq_refl (fun _ => eq_refl) eq_refl)
    as (e & info & Hrun & _ & _ & _ & _ & Htimed & _).
  exists e. destruct (Htimed eq_refl) as (Hclass & Hmessage).
  repeat split; assumption.
Defined.

(** ** Further results: the other resource-aware lookups *)

(** Settles the three parts of a remapping statement once the method and
    [request] are unfolded. *)
Ltac remap_cases JSON :=
  cbn zeta; rewrite run_try_catch_exchange, run_exchange; cbn [fst];
  destruct (settle JSON _ _) as [v|error]; (split; [|split]);
  [ intros e [=]
  | intros error [=]
  | intros v' [= ->]; reflexivity
  | intros e [= ->] Hnf; cbn [is_NotFoundError]; rewrite Hnf;
    eexists; split; [reflexivity|]; repeat split;
    unfold new_NotFoundError, construct; cbn [message ToString];
    rewrite !append_assoc; reflexivity
  | intros error' [= <-] Hnf; rewrite Hnf; reflexivity
  | intros v [=] ].

(** X1.  [getEntry] replaces a [NotFoundError] of its underlying request
    by one that names the entry and its collection and keeps the original
    request context, status 404 and code [NOT_FOUND]; any other thrown
    value, and any result, is passed on as it is. *)
Theorem getEntry_remaps_not_found
    (JSON : JsonFacility) (transport : Request -> Settlement)
    (collectionSlug uuid : string) (this : ApiClient) :
  let underlying :=
    fst (run transport
           (request JSON "GET" ("/" +:+ collectionSlug +:+ "/" +:+ uuid)
              JUndefined JUndefined this)) in
  let outcome := fst (run transport (getEntry JSON collectionSlug uuid this)) in
  (forall e,
      underlying = Throws (SdkError e) ->
      instanceof e NotFoundErrorClass = true ->
      exists e',
        outcome = Throws (SdkError e')
        /\ constructor_of e' = NotFoundErrorClass
        /\ statusCode e' = Some 404
        /\ code e' = JStr "NOT_FOUND"
        /\ message e'
           = "Entry '" +:+ uuid +:+ "' in collection '" +:+ collectionSlug
             +:+ "' not found."
        /\ requestInfo e' = requestInfo e)
  /\ (forall error,
        underlying = Throws error ->
        is_NotFoundError error = false ->
        outcome = Throws error)
  /\ (forall v, underlying = Returns v -> outcome = Returns v).
Proof.
  intros underlying outcome. subst underlying outcome.
  unfold getEntry, request. remap_cases JSON.
Qed.

Lemma getEntry_remaps_not_found_witness :
  exists e',
    fst (run (always (Rejected html_404))
           (getEntry ReferenceJson.JSON "posts" "42" sample_client))
    = Throws (SdkError e')
    /\ message e' = "Entry '42' in collection 'posts' not found.".
Proof.
  destruct (getEntry_remaps_not_found ReferenceJson.JSON
              (always (Rejected html_404)) "posts" "42" sample_client)
    as (Hremap & _ & _).
  cbv zeta in Hremap.
  edestruct Hremap as (e' & Houtcome & _ & _ & _ & Hmessage & _);
    [reflexivity|reflexivity|].
  exists e'. split; assumption.
Defined.

(** X2.  [getAsset] replaces a [NotFoundError] of its underlying request
    by one that names the asset identifier and keeps the original request
    context; any other thrown value, and any result, is passed on as it
    is. *)
Theorem getAsset_remaps_not_found
    (JSON : JsonFacility) (transport : Request -> Settlement)
    (identifier : string) (this : ApiClient) :
  let underlying :=
    fst (run transport
           (request JSON "GET" ("/files/" +:+ identifier)
              JUndefined JUndefined this)) in
  let outcome := fst (run transport (getAsset JSON identifier this)) in
  (forall e,
      underlying = Throws (SdkError e) ->
      instanceof e NotFoundErrorClass = true ->
      exists e',
        outcome = Throws (SdkError e')
        /\ constructor_of e' = NotFoundErrorClass
        /\ statusCode e' = Some 404
        /\ code e' = JStr "NOT_FOUND"
        /\ message e' = "Asset '" +:+ identifier +:+ "' not found."
        /\ requestInfo e' = requestInfo e)
  /\ (forall error,
        underlying = Throws error ->
        is_NotFoundError error = false ->
        outcome = Throws error)
  /\ (forall v, underlying = Returns v -> outcome = Returns v).
Proof.
  intros underlying outcome. subst underlying outcome.
  unfold getAsset, request. remap_cases JSON.
Qed.

Lemma getAsset_remaps_not_found_witness :
  exists e',
    fst (run (always (Rejected html_404))
           (getAsset ReferenceJson.JSON "17" sample_client))
    = Throws (SdkError e')
    /\ message e' = "Asset '17' not found.".
Proof.
  destruct (getAsset_remaps_not_found ReferenceJson.JSON
              (always (Rejected html_404)) "17" sample_client)
    as (Hremap & _ & _).
  cbv zeta in Hremap.
  edestruct Hremap as (e' & Houtcome & _ & _ & _ & Hmessage & _);
    [reflexivity|reflexivity|].
  exists e'. split; assumption.
Defined.

(** X3.  [getAssetByFilename] replaces a [NotFoundError] of its underlying
    request by one that names the file name and keeps the original request
    context; any other thrown value, and any result, is passed on as it
    is. *)
Theorem getAssetByFilename_remaps_not_found
    (JSON : JsonFacility) (transport : Request -> Settlement)
    (filename : string) (this : ApiClient) :
  let underlying :=
    fst (run transport
           (request JSON "GET" ("/files/name/" +:+ filename)
              JUndefined JUndefined this)) in
  let outcome := fst (run transport (getAssetByFilename JSON filename this)) in
  (forall e,
      underlying = Throws (SdkError e) ->
      instanceof e NotFoundErrorClass = true ->
      exists e',
        outcome = Throws (SdkError e')
        /\ constructor_of e' = NotFoundErrorClass
        /\ statusCode e' = Some 404
        /\ code e' = JStr "NOT_FOUND"
        /\ message e' = "Asset with filename '" +:+ filename +:+ "' not found."
        /\ requestInfo e' = requestInfo e)
  /\ (forall error,
        underlying = Throws error ->
        is_NotFoundError error = false ->
        outcome = Throws error)
  /\ (forall v, underlying = Returns v -> outcome = Returns v).
Proof.
  intros underlying outcome. subst underlying outcome.
  unfold getAssetByFilename, request. remap_cases JSON.
Qed.

Lemma getAssetByFilename_remaps_not_found_witness :
  exists e',
    fst (run (always (Rejected html_404))
           (getAssetByFilename ReferenceJson.JSON "logo.png" sample_client))
    = Throws (SdkError e')
    /\ message e' = "Asset with filename 'logo.png' not found.".
Proof.
  destruct (getAssetByFilename_remaps_not_found ReferenceJson.JSON
              (always (Rejected html_404)) "logo.png" sample_client)
    as (Hremap & _ & _).
  cbv zeta in Hremap.
  edestruct Hremap as (e' & Houtcome & _ & _ & _ & Hmessage & _);
    [reflexivity|reflexivity|].
  exists e'. split; assumption.
Defined.

(** ** Further results: what the calls put on the wire *)

(** X4.  [deleteEntry] and [deleteAsset] issue one body-less DELETE
    request; the [force] argument is forwarded as the query parameter
    [force], with the value given, exactly when it is truthy: [false],
    [0], [null], the empty string and an omitted argument send no [force]
    parameter at all. *)
Theorem delete_forwards_truthy_force
    (JSON : JsonFacility) (transport : Request -> Settlement)
    (collectionSlug uuid identifier : string) (force : JsValue)
    (this : ApiClient) :
  (exists req,
     issued transport (deleteEntry JSON collectionSlug uuid force this) = [req]
     /\ req_method req = "DELETE"
     /\ req_url req = basePath this +:+ "/" +:+ collectionSlug +:+ "/" +:+ uuid
     /\ req_send req = None
     /\ query_param "force" req = (if truthy force then Some force else None))
  /\ (exists req,
        issued transport (deleteAsset JSON identifier force this) = [req]
        /\ req_method req = "DELETE"
        /\ req_url req = basePath this +:+ "/files/" +:+ identifier
        /\ req_send req = None
        /\ query_param "force" req = (if truthy force then Some force else None)).
Proof.
  split; eexists; (split; [reflexivity|]);
    unfold query_param; destruct (truthy force);
    destruct (truthy (JStr (accessToken this))); repeat split.
Qed.

(** X5.  When the transport fulfils the request, every call returns the
    response's decoded body as it is, whatever its shape, and leaves the
    client unchanged. *)
Theorem fulfilled_call_returns_body
    (JSON : JsonFacility) (transport : Request -> Settlement)
    (op : Operation) (this : ApiClient) (response : Response) :
  reaches_transport op = true ->
  (forall req, transport req = Fulfilled response) ->
  run transport (call JSON op this) = (Returns (body response), this).
Proof.
  intros Hreach Htransport.
  destruct op; cbn [call reaches_transport] in *;
    try (unfold getProject, getCollections, getEntries, createEntry, updateEntry,
           patchEntry, deleteEntry, getAssets, deleteAsset, request;
         cbn zeta; rewrite run_exchange, Htransport; reflexivity);
    try (unfold getCollection, getEntry, getAsset, getAssetByFilename, request;
         cbn zeta; rewrite run_try_catch_exchange, Htransport; reflexivity).
  unfold uploadAsset, get. cbn zeta.
  apply negb_true_iff in Hreach. rewrite Hreach.
  rewrite run_exchange, Htransport. reflexivity.
Qed.

Lemma fulfilled_call_returns_body_witness :
  run (always (Fulfilled ok_response))
    (getCollection ReferenceJson.JSON "posts" sample_client)
  = (Returns (JObj [("data", JArr [JNum 1; JNum 2])]), sample_client).
Proof.
  apply (fulfilled_call_returns_body ReferenceJson.JSON
           (always (Fulfilled ok_response)) (Call_getCollection "posts")
           sample_client ok_response eq_refl (fun _ => eq_refl)).
Defined.

(** X6.  The request executor issues one request with the given method to
    [basePath] followed by the path.  Its headers are [project-id],
    [Accept] and, with a token, [Authorization], and no other.  The
    parameters are handed to the query string unless they are falsy
    ([undefined] counts as the empty object, [null] sends none); a body is
    sent only for truthy [data], so [0], [false], [null] and the empty
    string are never sent; nothing is attached. *)
Theorem request_construction
    (JSON : JsonFacility) (transport : Request -> Settlement)
    (method path : string) (params data : JsValue) (this : ApiClient) :
  exists req,
    issued transport (request JSON method path params data this) = [req]
    /\ req_method req = method
    /\ req_url req = basePath this +:+ path
    /\ dom (req_header req)
       = (if truthy (JStr (accessToken this))
          then {["Authorization"; "project-id"; "Accept"]}
          else {["project-id"; "Accept"]} : gset string)
    /\ req_query req
       = (if truthy (default_arg params (JObj []))
          then [default_arg params (JObj [])] else [])
    /\ req_send req = (if truthy data then Some data else None)
    /\ req_timeout req = Some (timeout this)
    /\ req_attach req = []
    /\ req_field req = [].
Proof.
  unfold request. cbn zeta. rewrite issued_exchange.
  eexists. split; [reflexivity|].
  decide_builder; repeat split;
    rewrite ?dom_insert_L, dom_empty_L; set_solver.
Qed.

(** Like [decide_builder], but evaluates the conditionals on literal
    arguments instead of splitting on them. *)
Ltac evaluate_builder :=
  repeat (cbn [truthy default_arg];
          match goal with
          | |- context [if ?b then _ else _] => destruct b
          end);
  cbn [req_header req_timeout req_query req_send req_method req_url
       req_attach req_field
       Agent.request Agent.post Agent.set Agent.query Agent.send
       Agent.timeout Agent.attach Agent.field].

(** X7.  Whatever the call, the request it issues goes to a URL that
    starts with the client's base path; it carries a body only if the
    call has a [data] argument and that argument is truthy, so no lookup,
    listing or delete ever sends one; and only [uploadAsset] attaches a
    file or sets a multipart field. *)
Theorem call_payload_discipline
    (JSON : JsonFacility) (transport : Request -> Settlement)
    (op : Operation) (this : ApiClient) :
  Forall (fun req =>
            (exists path, req_url req = basePath this +:+ path)
            /\ req_send req
               = match data_argument op with
                 | Some data => if truthy data then Some data else None
                 | None => None
                 end
            /\ (if is_upload op then req_send req = None /\ req_query req = []
                else req_attach req = [] /\ req_field req = []))
         (issued transport (call JSON op this)).
Proof.
  destruct op; cbn [call data_argument is_upload];
    try (expose_issued;
         (apply Forall_cons; split; [|constructor]);
         evaluate_builder; repeat split; eexists; reflexivity).
  unfold uploadAsset. cbn zeta.
  match goal with
  | |- context [get "name" ?f] => destruct (get "name" f)
  end; [|constructor].
  rewrite issued_exchange. apply Forall_cons; split; [|constructor].
  evaluate_builder; repeat split; eexists; reflexivity.
Qed.

(** ** Further results: what a failing call throws *)

Lemma createApiError_requestInfo (JSON : JsonFacility) error info e :
  createApiError JSON error info = Returns e -> requestInfo e = Some info.
Proof.
  destruct (nullish (decode_body JSON (response_body error))) eqn:Hd.
  - rewrite (createApiError_unreadable JSON error info Hd). discriminate.
  - rewrite (createApiError_readable JSON error info Hd). intros [= <-].
    repeat match goal with
           | |- context [if ?b then _ else _] => destruct b
           end; reflexivity.
Qed.

Lemma settle_throws_context (JSON : JsonFacility) settlement info e :
  settle JSON settlement info = Throws (SdkError e) -> requestInfo e = Some info.
Proof.
  destruct settlement as [response|error]; cbn [settle]; [discriminate|].
  destruct (err_response error).
  - destruct (createApiError JSON error info) as [e0|t] eqn:He0;
      cbn [throw_result]; intros [= <-].
    exact (createApiError_requestInfo JSON error info e0 He0).
  - intros [= <-]. apply createNetworkError_branches.
Qed.

(** The [catch] block of the resource-aware lookups keeps the request
    context of what it catches. *)
Lemma remap_keeps_context error label this0 info e
    (handler := (fun (error : Exception) (this : ApiClient) =>
       if is_NotFoundError error
       then Settled (Throws (SdkError
              (new_NotFoundError label (requestInfo_of error))), this)
       else Settled (Throws error, this)) : Exception -> Method JsValue) :
  (forall e0, error = SdkError e0 -> requestInfo e0 = Some info) ->
  forall transport : Request -> Settlement,
  fst (run transport (handler error this0)) = Throws (SdkError e) ->
  requestInfo e = Some info.
Proof.
  intros Hctx transport. subst handler. cbn beta.
  destruct (is_NotFoundError error) eqn:Hnf; cbn [run fst].
  - intros [= <-]. destruct error as [e0|t]; [|discriminate].
    cbn. apply Hctx. reflexivity.
  - intros [= ->]. apply Hctx. reflexivity.
Qed.

(** X8.  Every SDK error a call throws, remapped or not, carries the
    context of the one request the call issued: its method, its URL and
    the client's timeout. *)
Theorem thrown_error_carries_request_context
    (JSON : JsonFacility) (transport : Request -> Settlement)
    (op : Operation) (this : ApiClient) (e : ElmapiError) :
  fst (run transport (call JSON op this)) = Throws (SdkError e) ->
  exists req info,
    issued transport (call JSON op this) = [req]
    /\ requestInfo e = Some info
    /\ info_method info = req_method req
    /\ info_url info = req_url req
    /\ info_timeout info = timeout this.
Proof.
  destruct op; cbn [call];
    try (unfold getProject, getCollections, getEntries, createEntry, updateEntry,
           patchEntry, deleteEntry, getAssets, deleteAsset, request;
         cbn zeta; rewrite run_exchange, issued_exchange; cbn [fst];
         intros H; apply settle_throws_context in H;
         eexists _, _; split; [reflexivity|]; split; [exact H|];
         decide_builder; repeat split);
    try (unfold getCollection, getEntry, getAsset, getAssetByFilename, request;
         cbn zeta; rewrite run_try_catch_exchange, issued_try_catch_exchange;
         destruct (settle JSON _ _) as [v|error] eqn:Hsettle;
         [cbn [fst]; discriminate|];
         intros H;
         eapply remap_keeps_context in H;
         [|intros e0 ->; exact (settle_throws_context JSON _ _ e0 Hsettle)];
         destruct (is_NotFoundError error); cbn [issued];
         (eexists _, _; split; [reflexivity|]; split; [exact H|];
          decide_builder; repeat split)).
  unfold uploadAsset. cbn zeta.
  match goal with
  | |- context [get "name" ?f] => destruct (get "name" f)
  end; [|cbn [run fst]; discriminate].
  rewrite run_exchange, issued_exchange; cbn [fst].
  intros H; apply settle_throws_context in H.
  eexists _, _; split; [reflexivity|]; split; [exact H|].
  decide_builder; repeat split.
Qed.

Lemma thrown_error_carries_request_context_witness :
  exists e req info,
    fst (run (always (Rejected html_404))
           (getEntry ReferenceJson.JSON "posts" "42" sample_client))
    = Throws (SdkError e)
    /\ issued (always (Rejected html_404))
         (getEntry ReferenceJson.JSON "posts" "42" sample_client) = [req]
    /\ requestInfo e = Some info
    /\ info_url info = "https://cms.example/api/posts/42"
    /\ req_url req = "https://cms.example/api/posts/42".
Proof.
  eexists.
  edestruct (thrown_error_carries_request_context ReferenceJson.JSON
               (always (Rejected html_404)) (Call_getEntry "posts" "42")
               sample_client)
    as (req & info & Hissued & Hinfo & _ & Hurl & _);
    [reflexivity|].
  exists req, info.
  split; [reflexivity|]. split; [exact Hissued|]. split; [exact Hinfo|].
  cbn in Hissued. injection Hissued as <-.
  split; [rewrite Hurl|]; reflexivity.
Defined.

(** X9.  The failure of the classifier on a body that decodes to [null]
    reaches the caller of every call: the call throws the runtime's
    [TypeError], not an SDK error, and the [catch] blocks of the
    resource-aware lookups pass it on unchanged. *)
Theorem unreadable_body_escapes_every_call
    (JSON : JsonFacility) (transport : Request -> Settlement)
    (op : Operation) (this : ApiClient) (error : TransportError) :
  reaches_transport op = true ->
  (forall req, transport req = Rejected error) ->
  is_Some (err_response error) ->
  nullish (decode_body JSON (response_body error)) = true ->
  run transport (call JSON op this)
  = (Throws (JsError (TypeError "message")), this).
Proof.
  intros Hreach Htransport [response Hresponse] Hd.
  pose proof (createApiError_unreadable JSON error) as Hthrow.
  destruct op; cbn [call reaches_transport] in *;
    try (unfold getProject, getCollections, getEntries, createEntry, updateEntry,
           patchEntry, deleteEntry, getAssets, deleteAsset, request;
         cbn zeta; rewrite run_exchange, Htransport; cbn [settle];
         rewrite Hresponse, (Hthrow _ Hd); reflexivity);
    try (unfold getCollection, getEntry, getAsset, getAssetByFilename, request;
         cbn zeta; rewrite run_try_catch_exchange, Htransport; cbn [settle];
         rewrite Hresponse, (Hthrow _ Hd); reflexivity).
  unfold uploadAsset, get. cbn zeta.
  apply negb_true_iff in Hreach. rewrite Hreach.
  rewrite run_exchange, Htransport. cbn [settle].
  rewrite Hresponse, (Hthrow _ Hd). reflexivity.
Qed.

Lemma unreadable_body_escapes_every_call_witness :
  run (always (Rejected null_body_401))
    (getCollection ReferenceJson.JSON "posts" sample_client)
  = (Throws (JsError (TypeError "message")), sample_client).
Proof.
  apply (unreadable_body_escapes_every_call ReferenceJson.JSON
           (always (Rejected null_body_401)) (Call_getCollection "posts")
           sample_client null_body_401 eq_refl (fun _ => eq_refl)).
  - eexists. reflexivity.
  - reflexivity.
Defined.

(** ** Further results: uploads *)

(** X10.  [uploadAsset] called without a file ([null] or [undefined])
    fails on reading [file.name] before anything is awaited: no request
    is issued and the caller gets the runtime's [TypeError]. *)
Theorem uploadAsset_without_file
    (JSON : JsonFacility) (transport : Request -> Settlement)
    (file metadata : JsValue) (this : ApiClient) :
  nullish file = true ->
  issued transport (uploadAsset JSON file metadata this) = []
  /\ run transport (uploadAsset JSON file metadata this)
     = (Throws (JsError (TypeError "name")), this).
Proof.
  intros Hfile. unfold uploadAsset, get. cbn zeta. rewrite Hfile.
  split; reflexivity.
Qed.

Lemma uploadAsset_without_file_witness :
  issued (always (Fulfilled ok_response))
    (uploadAsset ReferenceJson.JSON JUndefined JUndefined sample_client) = []
  /\ run (always (Fulfilled ok_response))
       (uploadAsset ReferenceJson.JSON JUndefined JUndefined sample_client)
     = (Throws (JsError (TypeError "name")), sample_client).
Proof.
  apply (uploadAsset_without_file ReferenceJson.JSON
           (always (Fulfilled ok_response)) JUndefined JUndefined sample_client
           eq_refl).
Defined.

(** X11.  With a file, [uploadAsset] issues one POST to [basePath/files]
    that attaches the file under [file], has neither a JSON body nor a
    query, and has a [metadata] field, holding the JSON encoding of the
    metadata, exactly when the metadata is truthy.  An SDK error it throws
    records the file's name, or ['file'] when it has none, and the
    metadata as the request data. *)
Theorem uploadAsset_construction
    (JSON : JsonFacility) (transport : Request -> Settlement)
    (file metadata : JsValue) (this : ApiClient) :
  nullish file = false ->
  (exists req,
     issued transport (uploadAsset JSON file metadata this) = [req]
     /\ req_method req = "POST"
     /\ req_url req = basePath this +:+ "/files"
     /\ req_attach req = [("file", file)]
     /\ req_field req
        = (if truthy metadata
           then [("metadata", JSON_stringify JSON metadata)] else [])
     /\ req_send req = None
     /\ req_query req = [])
  /\ (forall e,
        fst (run transport (uploadAsset JSON file metadata this))
        = Throws (SdkError e) ->
        requestInfo e
        = Some {| info_method := "POST";
                  info_url := basePath this +:+ "/files";
                  info_params := JObj [];
                  info_data := JObj [("file", prop "name" file ||| JStr "file");
                                     ("metadata", metadata)];
                  info_timeout := timeout this |}).
Proof.
  intros Hfile. unfold uploadAsset, get. cbn zeta. rewrite Hfile. split.
  - rewrite issued_exchange. eexists. split; [reflexivity|].
    evaluate_builder; repeat split.
  - intros e. rewrite run_exchange. cbn [fst].
    apply settle_throws_context.
Qed.

Lemma uploadAsset_construction_witness :
  exists req,
    issued (always (Fulfilled ok_response))
      (uploadAsset ReferenceJson.JSON sample_file (JObj [("alt", JStr "Logo")])
         sample_client) = [req]
    /\ req_url req = "https://cms.example/api/files"
    /\ req_attach req = [("file", sample_file)]
    /\ req_field req
       = [("metadata", JStr ("{" +:+ dq +:+ "alt" +:+ dq +:+ ":" +:+ dq
                              +:+ "Logo" +:+ dq +:+ "}"))].
Proof.
  destruct (uploadAsset_construction ReferenceJson.JSON
              (always (Fulfilled ok_response)) sample_file
              (JObj [("alt", JStr "Logo")]) sample_client eq_refl)
    as ((req & Hissued & _ & Hurl & Hattach & Hfield & _) & _).
  exists req. repeat split; assumption.
Defined.

(** ** Further results: configuration *)

(** X12.  [validateConfiguration] passes exactly when the client's base
    path and project identifier are both non-empty.  Otherwise it throws a
    [ValidationError] (status 422, no request context) whose details and
    message list the violated constraints, each one exactly when it is
    violated; it throws nothing else. *)
Theorem validateConfiguration_reports_violations (this : ApiClient) :
  (fst (validateConfiguration this) = Returns tt
   <-> basePath this <> EmptyString /\ projectId this <> EmptyString)
  /\ (forall x,
        fst (validateConfiguration this) = Throws x ->
        exists e errors,
          x = SdkError e
          /\ constructor_of e = ValidationErrorClass
          /\ statusCode e = Some 422
          /\ requestInfo e = None
          /\ details e = JObj [("errors", JArr (JStr <$> errors))]
          /\ message e
             = "Invalid client configuration: " +:+ String.concat ", " errors
          /\ (In "Base path is required" errors <-> basePath this = EmptyString)
          /\ (In "Project ID is required" errors <-> projectId this = EmptyString)).
Proof.
  unfold validateConfiguration.
  destruct (basePath this) as [|b0 b]; destruct (projectId this) as [|p0 p];
    cbn; split.
  - split; [discriminate|intros [H _]; contradiction].
  - intros x [= <-].
    exists (new_ValidationError
              (JStr "Invalid client configuration: Base path is required, Project ID is required")
              (JObj [("errors", JArr [JStr "Base path is required";
                                      JStr "Project ID is required"])]) None),
           ["Base path is required"; "Project ID is required"].
    repeat split; cbn; auto.
  - split; [discriminate|intros [H _]; contradiction].
  - intros x [= <-].
    exists (new_ValidationError
              (JStr "Invalid client configuration: Base path is required")
              (JObj [("errors", JArr [JStr "Base path is required"])]) None),
           ["Base path is required"].
    repeat split; cbn; auto; try discriminate.
    intros [H|[]]; discriminate H.
  - split; [discriminate|intros [_ H]; contradiction].
  - intros x [= <-].
    exists (new_ValidationError
              (JStr "Invalid client configuration: Project ID is required")
              (JObj [("errors", JArr [JStr "Project ID is required"])]) None),
           ["Project ID is required"].
    repeat split; cbn; auto; try discriminate.
    intros [H|[]]; discriminate H.
  - split; [intros _; split; discriminate|reflexivity].
  - discriminate.
Qed.

Lemma validateConfiguration_reports_violations_witness :
  exists e,
    fst (validateConfiguration blanked_client) = Throws (SdkError e)
    /\ details e = JObj [("errors", JArr [JStr "Project ID is required"])].
Proof.
  destruct (validateConfiguration_reports_violations blanked_client)
    as (_ & Hthrows).
  destruct (Hthrows _ eq_refl)
    as (e & errors & Hx & _ & _ & _ & Hdetails & _ & Hbase & Hproject).
  exists e. injection Hx as <-. split; reflexivity.
Defined.

Lemma strip_slashes_only k : strip_trailing_slashes (slashes k) = EmptyString.
Proof.
  induction k as [|k IH]; [reflexivity|].
  cbn [slashes strip_trailing_slashes]. rewrite IH. reflexivity.
Qed.

(** Trailing slashes do not matter to what is left after stripping. *)
Lemma strip_trailing_slashes_append s k :
  strip_trailing_slashes (s +:+ slashes k) = strip_trailing_slashes s.
Proof.
  induction s as [|c rest IH]; [apply strip_slashes_only|].
  change (String c rest +:+ slashes k) with (String c (rest +:+ slashes k)).
  cbn [strip_trailing_slashes]. rewrite IH. reflexivity.
Qed.

(** X13.  [createClient] returns a client exactly when the base URL is
    more than a run of slashes and the project identifier is not empty; a
    base URL made of slashes only is rejected like an empty one.  Whatever
    it throws is the [ValidationError] of [validateConfiguration]: the
    fallback error of its [catch] block is never thrown. *)
Theorem createClient_accepts_iff
    (baseUrl apiToken project : string) (config_timeout : option Z) :
  ((exists client,
      createClient baseUrl apiToken project config_timeout = Returns client)
   <-> strip_trailing_slashes baseUrl <> EmptyString /\ project <> EmptyString)
  /\ (forall x,
        createClient baseUrl apiToken project config_timeout = Throws x ->
        exists e,
          x = SdkError e
          /\ constructor_of e = ValidationErrorClass
          /\ requestInfo e = None
          /\ message e <> "Failed to validate client configuration")
  /\ (forall k, exists e,
        createClient (slashes k) apiToken project config_timeout
        = Throws (SdkError e)
        /\ constructor_of e = ValidationErrorClass).
Proof.
  split; [|split].
  - unfold createClient, validateConfiguration, new_ApiClient.
    cbn [basePath projectId config_basePath config_projectId].
    destruct (strip_trailing_slashes baseUrl) as [|b0 b];
      destruct project as [|p0 p]; cbn;
      (split; [intros [client H]; try discriminate; split; discriminate
              |intros [? ?]; try congruence; eexists; reflexivity]).
  - unfold createClient, validateConfiguration, new_ApiClient.
    cbn [basePath projectId config_basePath config_projectId].
    destruct (strip_trailing_slashes baseUrl) as [|b0 b];
      destruct project as [|p0 p]; cbn;
      intros x [= <-]; eexists; repeat split; discriminate.
  - intros k. unfold createClient, validateConfiguration, new_ApiClient.
    cbn [basePath projectId config_basePath config_projectId].
    rewrite strip_slashes_only.
    destruct project as [|p0 p]; cbn; eexists; split; reflexivity.
Qed.

Lemma createClient_accepts_iff_witness :
  (exists client,
     createClient "https://cms.example/api/" "secret" "p-1" None = Returns client)
  /\ exists e,
       createClient "///" "secret" "p-1" None = Throws (SdkError e)
       /\ constructor_of e = ValidationErrorClass.
Proof.
  destruct (createClient_accepts_iff "https://cms.example/api/" "secret" "p-1" None)
    as ((_ & Haccept) & _ & _).
  split; [apply Haccept; split; discriminate|].
  destruct (createClient_accepts_iff "///" "secret" "p-1" None)
    as (_ & _ & Hslashes).
  exact (Hslashes 3%nat).
Defined.

(** X14.  Base URLs that differ only in trailing slashes configure the
    same client: [createClient] gives the same outcome for both, and
    stripping is idempotent. *)
Theorem createClient_ignores_trailing_slashes
    (baseUrl apiToken projectId : string) (config_timeout : option Z) (k : nat) :
  createClient (baseUrl +:+ slashes k) apiToken projectId config_timeout
  = createClient baseUrl apiToken projectId config_timeout
  /\ strip_trailing_slashes (strip_trailing_slashes baseUrl)
     = strip_trailing_slashes baseUrl.
Proof.
  split.
  - unfold createClient, new_ApiClient. cbn [config_basePath].
    rewrite strip_trailing_slashes_append. reflexivity.
  - destruct (strip_trailing_slashes_decompose baseUrl) as [n Hn].
    rewrite Hn at 2. rewrite strip_trailing_slashes_append. reflexivity.
Qed.

(** ** Further results: what the classifier reads *)

(** X15.  When the response has a truthy decoded [body], the classifier
    never looks at the raw [text]: the outcome is the same whatever the
    text is.  So a plain-text answer that the transport reports with an
    empty object for a body is described by the transport's message, not
    by its text. *)
Theorem truthy_body_hides_text
    (JSON : JsonFacility) (error : TransportError) (response : Response)
    (t : JsValue) (info : RequestInfo) :
  err_response error = Some response ->
  truthy (body response) = true ->
  createApiError JSON (with_text t error) info = createApiError JSON error info.
Proof.
  intros Hresponse Hbody.
  destruct error as [r c tm m]. cbn in Hresponse. subst r.
  unfold createApiError, response_body, with_text, js_or. cbn.
  rewrite Hbody. reflexivity.
Qed.

Lemma truthy_body_hides_text_witness :
  createApiError ReferenceJson.JSON
    (with_text (JStr "Anything else") plain_text_401) sample_info
  = createApiError ReferenceJson.JSON plain_text_401 sample_info
  /\ exists e,
       createApiError ReferenceJson.JSON plain_text_401 sample_info = Returns e
       /\ message e = "Unauthorized".
Proof.
  split.
  - apply (truthy_body_hides_text ReferenceJson.JSON plain_text_401
             {| status := 401; body := JObj [];
                text := JStr "Unauthorized access" |}
             (JStr "Anything else") sample_info eq_refl eq_refl).
  - eexists. split; reflexivity.
Defined.

(** X16.  What survives of a readable error body (not [null], with
    [message] and [error] strings when present) depends on the status.
    For 401, 403, 404, 429 and the four server statuses the error carries
    the class's own status code and machine code and no details: the
    body's [code] and [details] are dropped.  For 422 the body's [details]
    are kept under the code [VALIDATION_ERROR].  For every other status
    the error is a plain [ElmapiError] with the actual status and the
    body's [code] and [details]. *)
Theorem createApiError_fields_by_status
    (JSON : JsonFacility) (error : TransportError) (response : Response)
    (info : RequestInfo) :
  let d := decode_body JSON (response_body error) in
  let s := status response in
  err_response error = Some response ->
  readable d ->
  exists e,
    createApiError JSON error info = Returns e
    /\ (s = 401 ->
        name e = "AuthenticationError" /\ statusCode e = Some 401
        /\ code e = JStr "AUTHENTICATION_ERROR" /\ details e = JUndefined)
    /\ (s = 403 ->
        name e = "AuthorizationError" /\ statusCode e = Some 403
        /\ code e = JStr "AUTHORIZATION_ERROR" /\ details e = JUndefined)
    /\ (s = 404 ->
        name e = "NotFoundError" /\ statusCode e = Some 404
        /\ code e = JStr "NOT_FOUND" /\ details e = JUndefined)
    /\ (s = 422 ->
        name e = "ValidationError" /\ statusCode e = Some 422
        /\ code e = JStr "VALIDATION_ERROR" /\ details e = prop "details" d)
    /\ (s = 429 ->
        name e = "RateLimitError" /\ statusCode e = Some 429
        /\ code e = JStr "RATE_LIMIT_ERROR" /\ details e = JUndefined)
    /\ (s = 500 \/ s = 502 \/ s = 503 \/ s = 504 ->
        name e = "ServerError" /\ statusCode e = Some 500
        /\ code e = JStr "SERVER_ERROR" /\ details e = JUndefined)
    /\ (Forall (fun k => s <> k) [401; 403; 404; 422; 429; 500; 502; 503; 504] ->
        name e = "ElmapiError" /\ statusCode e = Some s
        /\ code e = prop "code" d /\ details e = prop "details" d).
Proof.
  intros d s Hresponse (Hd & _ & _).
  rewrite (createApiError_readable JSON error info Hd). fold d.
  rewrite Hresponse. cbn [fmap option_fmap option_map strict_eq_number].
  fold s. clearbody s d.
  eexists. split; [reflexivity|].
  repeat (split; [intros ->; repeat split|]).
  split; [intros [-> | [-> | [-> | ->]]]; repeat split|].
  intros Hother.
  repeat match goal with
         | H : Forall _ (_ :: _) |- _ =>
             apply Forall_cons in H; destruct H as [? H]
         end.
  repeat match goal with
         | Hn : ?v <> ?k |- _ =>
             let E := fresh "E" in
             assert (E : Z.eqb v k = false) by (apply Z.eqb_neq; exact Hn);
             rewrite E; clear Hn
         end.
  repeat split.
Qed.

Lemma createApiError_fields_by_status_witness :
  exists e,
    createApiError ReferenceJson.JSON invalid_token_401 sample_info = Returns e
    /\ code e = JStr "AUTHENTICATION_ERROR"
    /\ details e = JUndefined.
Proof.
  destruct (createApiError_fields_by_status ReferenceJson.JSON invalid_token_401
              {| status := 401; body := JNull; text := JStr invalid_token_text |}
              sample_info eq_refl (conj eq_refl (conj I I)))
    as (e & He & H401 & _).
  exists e. destruct (H401 eq_refl) as (_ & _ & Hcode & Hdetails).
  repeat split; assumption.
Defined.

(** ** Further results: the debug information *)

(** X17.  [getDebugInfo] reports the base path, the project identifier
    and the timeout of the client, and whether it holds a token, under
    exactly four keys, so the token itself is not part of the report; its
    [hasAccessToken] flag is true exactly when the requests the client
    issues carry an [Authorization] header. *)
Theorem getDebugInfo_reports_authorization
    (JSON : JsonFacility) (transport : Request -> Settlement)
    (op : Operation) (this : ApiClient) :
  exists report,
    getDebugInfo this = (Returns (JObj report), this)
    /\ report.*1 = ["basePath"; "hasAccessToken"; "projectId"; "timeout"]
    /\ prop "basePath" (JObj report) = JStr (basePath this)
    /\ prop "projectId" (JObj report) = JStr (projectId this)
    /\ prop "timeout" (JObj report) = JNum (timeout this)
    /\ Forall (fun req =>
                 prop "hasAccessToken" (JObj report)
                 = JBool (bool_decide (is_Some (req_header req !! "Authorization"))))
         (issued transport (call JSON op this)).
Proof.
  eexists. split; [reflexivity|]. repeat split.
  eapply Forall_impl; [apply (call_identified JSON transport op this)|].
  intros req [_ Hauth]. cbn [prop assoc String.eqb Ascii.eqb default].
  cbn -[truthy]. rewrite Hauth.
  destruct (truthy (JStr (accessToken this))); reflexivity.
Qed.
